(** * Telco churn dashboard: a shallow embedding of [dashboard.py]

    The script reads a CSV file into a pandas [DataFrame], derives the
    [churn_label] column when it is absent, filters the frame by two
    multiselect widgets and renders metrics, two charts and a preview.

    The embedding keeps the column-oriented layout of pandas (an index of row
    labels and an ordered list of named columns), the exceptions Python raises
    ([KeyError], [TypeError], ...) and the elements Streamlit renders, in the
    order the script emits them.  A Python float is [nan] or the rational a
    binary64 value stands for, and a division or subtraction of floats is
    rounded to binary64 as IEEE 754 prescribes (nearest, ties to even). *)

From Stdlib Require Import String List ZArith QArith Qround Qabs Bool Lia Lqa.
From Stdlib Require PrimFloat Uint63.
Import ListNotations.
Local Open Scope string_scope.
Local Open Scope list_scope.

(** ** Cell values, as [pd.read_csv] produces them *)

Inductive value : Type :=
| VNaN                  (* missing cell: float('nan') *)
| VBool (b : bool)
| VInt (z : Z)
| VFloat (q : Q)
| VStr (s : string).

(** The number a cell stands for in arithmetic ([True] is 1, [False] is 0). *)
Definition to_num (v : value) : option Q :=
  match v with
  | VBool b => Some (if b then 1 else 0)%Q
  | VInt z => Some (inject_Z z)
  | VFloat q => Some q
  | VNaN | VStr _ => None
  end.

(** Equality as the hash tables behind [Series.isin] and [Series.unique] see
    it: numbers compare by value, strings by content, and a missing cell
    matches a missing cell. *)
Definition value_eqb (v w : value) : bool :=
  match v, w with
  | VNaN, VNaN => true
  | VStr a, VStr b => String.eqb a b
  | _, _ =>
      match to_num v, to_num w with
      | Some a, Some b => Qeq_bool a b
      | _, _ => false
      end
  end.

(** Python's [x == "Yes"]: only a string can be equal to a string. *)
Definition py_eq_str (x : value) (s : string) : bool :=
  match x with
  | VStr a => String.eqb a s
  | _ => false
  end.

(** ** Series and data frames *)

Definition Series := list value.

Record DataFrame : Type := mkFrame {
  index : list nat;                       (* row labels *)
  columns : list (string * Series)        (* named columns, in order *)
}.

Definition column_names (df : DataFrame) : list string := map fst (columns df).

(** [len(df)] *)
Definition len (df : DataFrame) : nat := length (index df).

(** [df.empty]: some axis has length zero. *)
Definition empty (df : DataFrame) : bool :=
  match index df, columns df with
  | [], _ | _, [] => true
  | _, _ => false
  end.

(** Every column has one cell per row label. *)
Definition wf_frame (df : DataFrame) : Prop :=
  Forall (fun c => length (snd c) = length (index df)) (columns df).

(** ** Exceptions and the two monads of the script *)

Inductive exn : Type :=
| KeyError (key : string)
| TypeError
| ValueError
| ParserError
| FileNotFoundError.

Inductive result (A : Type) : Type :=
| Ok (a : A)
| Raise (e : exn).
Arguments Ok {A} a.
Arguments Raise {A} e.

Class Monad (M : Type -> Type) : Type := {
  ret : forall {A}, A -> M A;
  bind : forall {A B}, M A -> (A -> M B) -> M B
}.

Declare Scope script_scope.
Delimit Scope script_scope with script.
Notation "x <- c1 ;; c2" := (bind c1 (fun x => c2))
  (at level 61, c1 at next level, right associativity) : script_scope.
Notation "c1 ;; c2" := (bind c1 (fun _ => c2))
  (at level 61, right associativity) : script_scope.
Local Open Scope script_scope.

#[export] Instance result_monad : Monad result := {
  ret := fun A a => Ok a;
  bind := fun A B m k => match m with Ok a => k a | Raise e => Raise e end
}.

(** ** pandas operations used by the script *)

Fixpoint get_col (cols : list (string * Series)) (name : string) : option Series :=
  match cols with
  | [] => None
  | (n, s) :: rest => if String.eqb n name then Some s else get_col rest name
  end.

(** [name in df.columns] *)
Definition has_column (name : string) (df : DataFrame) : bool :=
  existsb (String.eqb name) (column_names df).

(** [df[name]] *)
Definition getitem (df : DataFrame) (name : string) : result Series :=
  match get_col (columns df) name with
  | Some s => Ok s
  | None => Raise (KeyError name)
  end.

Fixpoint set_col (cols : list (string * Series)) (name : string) (s : Series)
  : list (string * Series) :=
  match cols with
  | [] => [(name, s)]
  | (n, old) :: rest =>
      if String.eqb n name then (n, s) :: rest else (n, old) :: set_col rest name s
  end.

(** [df[name] = s]: replaces the column, or appends it after the others. *)
Definition setitem (df : DataFrame) (name : string) (s : Series) : DataFrame :=
  mkFrame (index df) (set_col (columns df) name s).

(** [s.apply(f)] *)
Definition apply (f : value -> value) (s : Series) : Series := map f s.

(** [s.isin(values)] *)
Definition isin1 (v : value) (values : list value) : bool :=
  existsb (value_eqb v) values.

Definition isin (s : Series) (values : list value) : list bool :=
  map (fun v => isin1 v values) s.

(** [m1 & m2] on boolean series over the same index *)
Fixpoint series_and (m1 m2 : list bool) : list bool :=
  match m1, m2 with
  | a :: t1, b :: t2 => (a && b) :: series_and t1 t2
  | _, _ => []
  end.

(** Positions of [l] at which the mask holds. *)
Fixpoint select {A : Type} (mask : list bool) (l : list A) : list A :=
  match mask, l with
  | b :: m, x :: t => if b then x :: select m t else select m t
  | _, _ => []
  end.

(** [df[mask]]: boolean indexing keeps the masked rows with their labels. *)
Definition loc_mask (df : DataFrame) (mask : list bool) : DataFrame :=
  mkFrame (select mask (index df))
          (map (fun c => (fst c, select mask (snd c))) (columns df)).

(** [s.unique()]: distinct values in order of first appearance. *)
Fixpoint unique_from (seen : list value) (s : Series) : list value :=
  match s with
  | [] => []
  | v :: t =>
      if isin1 v seen then unique_from seen t else v :: unique_from (v :: seen) t
  end.

Definition unique (s : Series) : list value := unique_from [] s.

(** [df.head(n)] *)
Definition head (n : nat) (df : DataFrame) : DataFrame :=
  mkFrame (firstn n (index df))
          (map (fun c => (fst c, firstn n (snd c))) (columns df)).

(** Python floats: [nan], or the rational a binary64 value stands for. *)
Inductive pyfloat : Type :=
| FNaN
| FVal (q : Q).

(** *** Rounding to binary64 *)

(** [2 ^ p] for an integer exponent. *)
Definition pow2 (p : Z) : Q :=
  if (p <=? 0)%Z then / inject_Z (2 ^ (- p)) else inject_Z (2 ^ p).

(** The integer nearest to [x], the even one of the two at a tie. *)
Definition rne (x : Q) : Z :=
  let f := Qfloor x in
  match Qcompare (x - inject_Z f) (1 # 2) with
  | Lt => f
  | Gt => (f + 1)%Z
  | Eq => if Z.even f then f else (f + 1)%Z
  end.

(** The exponent of the leading bit of a positive rational. *)
Definition ilog2 (q : Q) : Z :=
  let e := (Z.log2 (Qnum q) - Z.log2 (Zpos (Qden q)))%Z in
  if Qle_bool (pow2 e) q then e else (e - 1)%Z.

(** The binary64 value nearest to [q]: 53 significant bits, the last one at
    [2 ^ -1074] at least, ties to the even significand. Results beyond the
    largest binary64 value, which Python turns into [inf], are not modelled. *)
Definition round64 (q : Q) : Q :=
  let r := Qred q in
  match Qnum r with
  | Z0 => 0
  | _ =>
      let a := Qabs r in
      let p := Z.max (ilog2 a - 52) (-1074) in
      let m := inject_Z (rne (a / pow2 p)) * pow2 p in
      Qred (if (Qnum r <? 0)%Z then - m else m)
  end.

(** The hardware float of a rational whose numerator and denominator are
    binary64 values themselves (as those of a result of [round64] are). *)
Definition to_binary64 (q : Q) : PrimFloat.float :=
  let n := PrimFloat.of_uint63 (Uint63.of_Z (Z.abs (Qnum q))) in
  let d := PrimFloat.of_uint63 (Uint63.of_Z (Zpos (Qden q))) in
  if (Qnum q <? 0)%Z then PrimFloat.opp (PrimFloat.div n d) else PrimFloat.div n d.

Definition is_str (v : value) : bool :=
  match v with VStr _ => true | _ => false end.

Definition notna (v : value) : bool :=
  match v with VNaN => false | _ => true end.

Definition num_or_zero (v : value) : Q :=
  match to_num v with Some q => q | None => 0 end.

Definition total (s : Series) : Q :=
  fold_right (fun v acc => num_or_zero v + acc)%Q 0%Q s.

(** [s.mean()]: missing cells are skipped; text cannot be averaged; the mean
    of no cell at all is [nan]; otherwise the float64 sum of the cells is
    divided by their number, a float64 division. The sum is taken exactly:
    for integer cells it is exact in float64 as long as it stays below
    [2 ^ 53]. *)
Definition mean (s : Series) : result pyfloat :=
  let xs := filter notna s in
  if existsb is_str xs then Raise TypeError
  else match xs with
       | [] => Ok FNaN
       | _ => Ok (FVal (round64 (total xs / inject_Z (Z.of_nat (length xs)))))
       end.

(** [a - b] on floats: a float64 subtraction; [nan] propagates. *)
Definition fsub (a b : pyfloat) : pyfloat :=
  match a, b with
  | FVal x, FVal y => FVal (round64 (x - y))
  | _, _ => FNaN
  end.

(** [0.0 <= x <= 1.0]; every comparison with [nan] is false. *)
Definition in_unit_interval (x : pyfloat) : Prop :=
  match x with
  | FNaN => False
  | FVal q => (0 <= q /\ q <= 1)%Q
  end.

(** ** Streamlit: the rendered page and the script monad *)

(** What a metric tile shows. The format specifications [:,] and [:.2%] only
    decide the digits printed; the tile is modelled by the number it prints. *)
Inductive shown : Type :=
| Count (n : nat)
| Percent (x : pyfloat).

(** A figure built by [px.histogram]. *)
Record figure : Type := mkFigure {
  fig_data : DataFrame;
  fig_x : string;
  fig_color : string;
  fig_title : string;
  fig_category_order : list string
}.

Inductive element : Type :=
| PageConfig (layout page_title : string)
| ErrorBox (msg : string)
| Title (text : string)
| SidebarHeader (text : string)
| SidebarMultiselect (label : string) (options selection : list value)
| Header (text : string)
| Metric (label : string) (shows : shown) (delta : option pyfloat)
| Markdown (text : string)
| PlotlyChart (fig : figure)
| DataframeView (data : DataFrame).

(** How a run of the script, or of a part of it, ends. *)
Inductive outcome (A : Type) : Type :=
| Done (a : A)
| Stopped                 (* st.stop() *)
| Crashed (e : exn).      (* an uncaught exception *)
Arguments Done {A} a.
Arguments Stopped {A}.
Arguments Crashed {A} e.

(** A computation renders elements, in order, and ends in an outcome. *)
Definition script (A : Type) : Type := (list element * outcome A)%type.

#[export] Instance script_monad : Monad script := {
  ret := fun A a => ([], Done a);
  bind := fun A B m k =>
    match m with
    | (page, Done a) => let (more, r) := k a in (page ++ more, r)
    | (page, Stopped) => (page, Stopped)
    | (page, Crashed e) => (page, Crashed e)
    end
}.

Definition rendered {A : Type} (m : script A) : list element := fst m.
Definition ending {A : Type} (m : script A) : outcome A := snd m.

Definition emit (e : element) : script unit := ([e], Done tt).

Definition lift {A : Type} (r : result A) : script A :=
  match r with
  | Ok a => ([], Done a)
  | Raise e => ([], Crashed e)
  end.

Definition st_set_page_config (layout page_title : string) : script unit :=
  emit (PageConfig layout page_title).
Definition st_error (msg : string) : script unit := emit (ErrorBox msg).
Definition st_title (text : string) : script unit := emit (Title text).
Definition st_header (text : string) : script unit := emit (Header text).
Definition st_markdown (text : string) : script unit := emit (Markdown text).
Definition st_sidebar_header (text : string) : script unit :=
  emit (SidebarHeader text).
Definition st_metric (label : string) (shows : shown) (delta : option pyfloat)
  : script unit := emit (Metric label shows delta).
Definition st_plotly_chart (fig : figure) : script unit := emit (PlotlyChart fig).
Definition st_dataframe (data : DataFrame) : script unit :=
  emit (DataframeView data).
Definition st_stop {A : Type} : script A := ([], Stopped).

(** [st.sidebar.multiselect(label, options=.., default=..)]: the widget
    returns the default until the user has changed the selection. *)
Definition st_sidebar_multiselect (label : string) (options default : list value)
    (chosen : option (list value)) : script (list value) :=
  let selection := match chosen with Some s => s | None => default end in
  (emit (SidebarMultiselect label options selection) ;; ret selection).

(** [px.histogram(data, x=.., color=.., ...)]: both columns must exist. *)
Definition px_histogram (data : DataFrame) (x color title : string)
    (category_order : list string) : result figure :=
  if has_column x data && has_column color data
  then Ok (mkFigure data x color title category_order)
  else Raise ValueError.

(** ** The environment of a run *)

(** What is found at [DATA_FILE]. *)
Inductive file_state : Type :=
| NoFile                      (* nothing there, or not a regular file *)
| Unparseable                 (* a file [pd.read_csv] rejects *)
| Csv (table : DataFrame).    (* a file [pd.read_csv] parses to [table] *)

Record env : Type := mkEnv {
  DATA_FILE : string;       (* Path(__file__).parent / 'data' / '...csv' *)
  disk : file_state
}.

(** The state of the two sidebar widgets: [None] while untouched. *)
Record user : Type := mkUser {
  chosen_contract : option (list value);
  chosen_internet : option (list value)
}.

Definition is_file (e : env) : bool :=
  match disk e with NoFile => false | _ => true end.

Definition read_csv (e : env) : result DataFrame :=
  match disk e with
  | Csv table => Ok table
  | Unparseable => Raise ParserError
  | NoFile => Raise FileNotFoundError
  end.

(** ** The script *)

(** [lambda x: 1 if x == "Yes" else 0] *)
Definition churn_to_label (x : value) : value :=
  if py_eq_str x "Yes" then VInt 1 else VInt 0.

(** [st.cache_data] stores the returned frame and the elements rendered by
    the call and replays both on later runs, so every run sees what the first
    call did. *)
Definition load_data (e : env) : script (option DataFrame) :=
  if negb (is_file e) then
    st_error ("--- ERROR: Data file not found at " ++ DATA_FILE e ++ " ---") ;;
    st_error "Please make sure 'cleaned_telco_customers.csv' is in a 'data' folder next to this script." ;;
    ret None
  else
    df <- lift (read_csv e) ;;
    if negb (has_column "churn_label" df) then
      if has_column "Churn" df then
        churn <- lift (getitem df "Churn") ;;
        ret (Some (setitem df "churn_label" (apply churn_to_label churn)))
      else
        st_error "❌ Neither 'churn_label' nor 'Churn' column found in dataset. Please re-run the cleaning pipeline." ;;
        ret None
    else
      ret (Some df).

(** Lines 65-68: the rows that pass both membership tests. *)
Definition filtered_df (df : DataFrame) (contract_filter internet_filter : list value)
  : result DataFrame :=
  contract <- getitem df "Contract" ;;
  internet <- getitem df "InternetService" ;;
  ret (loc_mask df (series_and (isin contract contract_filter)
                               (isin internet internet_filter))).

(** Line 73 *)
Definition overall_churn_rate (df : DataFrame) : result pyfloat :=
  labels <- getitem df "churn_label" ;;
  mean labels.

(** Line 74 *)
Definition segment_churn_rate (filtered : DataFrame) : result pyfloat :=
  if negb (empty filtered) then
    labels <- getitem filtered "churn_label" ;;
    mean labels
  else ret (FVal 0).

Definition tenure_order : list string :=
  ["0-1 Year"; "1-2 Years"; "2-4 Years"; "4+ Years"].

(** Everything below the [st.stop()] guard, statement by statement. The
    containers [st.columns(3)] and [st.columns(2)] only place the tiles and
    the charts side by side; the page keeps the order of the calls. *)
Definition render_dashboard (df : DataFrame) (u : user) : script unit :=
  st_sidebar_header "Customer Filters" ;;
  contract_options <- lift (c <- getitem df "Contract" ;; ret (unique c)) ;;
  contract_filter <-
    st_sidebar_multiselect "Select Contract Type"
      contract_options contract_options (chosen_contract u) ;;
  internet_options <- lift (c <- getitem df "InternetService" ;; ret (unique c)) ;;
  internet_filter <-
    st_sidebar_multiselect "Select Internet Service"
      internet_options internet_options (chosen_internet u) ;;
  filtered <- lift (filtered_df df contract_filter internet_filter) ;;
  overall <- lift (overall_churn_rate df) ;;
  segment <- lift (segment_churn_rate filtered) ;;
  st_header "Key Metrics" ;;
  st_metric "Total Customers in Segment" (Count (len filtered)) None ;;
  st_metric "Overall Churn Rate" (Percent overall) None ;;
  st_metric "Segment Churn Rate" (Percent segment) (Some (fsub segment overall)) ;;
  st_markdown "---" ;;
  st_header "Visual Analysis" ;;
  fig_contract <-
    lift (px_histogram filtered "Contract" "churn_label" "Churn by Contract Type" []) ;;
  st_plotly_chart fig_contract ;;
  fig_tenure <-
    lift (px_histogram filtered "tenure_bucket" "churn_label" "Churn by Tenure"
            tenure_order) ;;
  st_plotly_chart fig_tenure ;;
  st_header "Filtered Customer Data" ;;
  st_dataframe (head 10 filtered).

(** The whole script, top to bottom. *)
Definition dashboard (e : env) (u : user) : script unit :=
  st_set_page_config "wide" "Telco Churn Analysis" ;;
  df <- load_data e ;;
  st_title "📊 Telco Customer Churn Dashboard" ;;
  df <- match df with
        | None => st_stop
        | Some table => ret table
        end ;;
  render_dashboard df u.

(** ** Rows: the table read record by record *)

(** A customer record: the row label and the named cells of the row. *)
Definition customer : Type := (nat * list (string * value))%type.

Definition heads (cols : list (string * Series)) : list (string * value) :=
  map (fun c => (fst c, hd VNaN (snd c))) cols.

Definition tails (cols : list (string * Series)) : list (string * Series) :=
  map (fun c => (fst c, tl (snd c))) cols.

Fixpoint rows_of (idx : list nat) (cols : list (string * Series)) : list customer :=
  match idx with
  | [] => []
  | i :: rest => (i, heads cols) :: rows_of rest (tails cols)
  end.

(** The rows of a frame, top to bottom (as [df.iterrows()] walks them). *)
Definition rows (df : DataFrame) : list customer :=
  rows_of (index df) (columns df).

(** [row[name]] *)
Fixpoint cell (r : list (string * value)) (name : string) : option value :=
  match r with
  | [] => None
  | (n, v) :: rest => if String.eqb n name then Some v else cell rest name
  end.

(** The row's cell under [name] is one of the selected values. *)
Definition row_isin (name : string) (selected : list value) (r : customer) : bool :=
  match cell (snd r) name with
  | Some v => isin1 v selected
  | None => false
  end.

(** The membership test of the filter, read on one row. *)
Definition keeps (contract_filter internet_filter : list value) (r : customer) : bool :=
  row_isin "Contract" contract_filter r && row_isin "InternetService" internet_filter r.

(** The claim that a page shows nothing but error text (the page
    configuration is not an element of the page). *)
Definition error_text_only (page : list element) : Prop :=
  forall e, In e page ->
    (exists l t, e = PageConfig l t) \/ (exists msg, e = ErrorBox msg).

Definition is_error_box (e : element) : bool :=
  match e with ErrorBox _ => true | _ => false end.

(** A churn indicator column: every cell is the integer 0 or 1. *)
Definition binary (s : Series) : Prop :=
  Forall (fun v => v = VInt 0 \/ v = VInt 1) s.

(** The two elements every run starts with. *)
Definition page_config : element := PageConfig "wide" "Telco Churn Analysis".
Definition page_title : element := Title "📊 Telco Customer Churn Dashboard".

(** The overall churn rate a page shows, if it shows one. *)
Definition shows_overall (page : list element) (x : shown) : Prop :=
  exists delta, In (Metric "Overall Churn Rate" x delta) page.

(** ** Sample inputs *)

Definition telco_file : string := "data/cleaned_telco_customers.csv".

(** Three customers, with the textual churn column only. *)
Definition three_customers : DataFrame :=
  mkFrame [0; 1; 2]%nat
    [("Contract", [VStr "Month-to-month"; VStr "Month-to-month"; VStr "Two year"]);
     ("InternetService", [VStr "DSL"; VStr "Fiber optic"; VStr "No"]);
     ("tenure_bucket", [VStr "0-1 Year"; VStr "2-4 Years"; VStr "4+ Years"]);
     ("Churn", [VStr "Yes"; VStr "No"; VStr "No"])].

(** The same customers after cleaning: a binary indicator that disagrees
    with the textual column in the last row. *)
Definition three_labelled : DataFrame :=
  mkFrame [0; 1; 2]%nat
    [("Contract", [VStr "Month-to-month"; VStr "Month-to-month"; VStr "Two year"]);
     ("InternetService", [VStr "DSL"; VStr "Fiber optic"; VStr "No"]);
     ("tenure_bucket", [VStr "0-1 Year"; VStr "2-4 Years"; VStr "4+ Years"]);
     ("Churn", [VStr "Yes"; VStr "No"; VStr "No"]);
     ("churn_label", [VInt 1; VInt 0; VInt 7])].

(** A CSV file that holds the header line and no customer. *)
Definition header_only : DataFrame :=
  mkFrame []
    [("Contract", []); ("InternetService", []); ("tenure_bucket", []);
     ("churn_label", [])].

(** A table without any churn column. *)
Definition no_churn_columns : DataFrame :=
  mkFrame [0]%nat
    [("Contract", [VStr "One year"]); ("InternetService", [VStr "DSL"])].

Definition monthly : value := VStr "Month-to-month".
Definition two_year : value := VStr "Two year".

Definition untouched : user := mkUser None None.
Definition monthly_only : user := mkUser (Some [VStr "Month-to-month"]) None.

(** ** The page of a run that reaches the end *)

(** What a multiselect returns: the user's choice, or else the default. *)
Definition selection (chosen : option (list value)) (default : list value) : list value :=
  match chosen with Some s => s | None => default end.

(** The mask lines 65-68 build from the two columns and the two selections. *)
Definition filter_mask (contract internet : Series) (u : user) : list bool :=
  series_and (isin contract (selection (chosen_contract u) (unique contract)))
             (isin internet (selection (chosen_internet u) (unique internet))).

(** The elements [render_dashboard] emits when no statement raises. *)
Definition full_page (contract internet : Series) (u : user)
    (filtered : DataFrame) (overall segment : pyfloat) : list element :=
  [ SidebarHeader "Customer Filters";
    SidebarMultiselect "Select Contract Type" (unique contract)
      (selection (chosen_contract u) (unique contract));
    SidebarMultiselect "Select Internet Service" (unique internet)
      (selection (chosen_internet u) (unique internet));
    Header "Key Metrics";
    Metric "Total Customers in Segment" (Count (len filtered)) None;
    Metric "Overall Churn Rate" (Percent overall) None;
    Metric "Segment Churn Rate" (Percent segment) (Some (fsub segment overall));
    Markdown "---";
    Header "Visual Analysis";
    PlotlyChart (mkFigure filtered "Contract" "churn_label" "Churn by Contract Type" []);
    PlotlyChart (mkFigure filtered "tenure_bucket" "churn_label" "Churn by Tenure"
                   tenure_order);
    Header "Filtered Customer Data";
    DataframeView (head 10 filtered) ].

(** The number of cells of a column that are the integer 1. *)
Fixpoint count_ones (s : Series) : nat :=
  match s with
  | [] => 0
  | VInt 1 :: t => S (count_ones t)
  | _ :: t => count_ones t
  end.

(** The number of cells of a column that are the string "Yes". *)
Definition count_yes (s : Series) : nat :=
  List.length (filter (fun x => py_eq_str x "Yes") s).

(** Three customers with a clean binary indicator. *)
Definition three_binary : DataFrame :=
  mkFrame [0; 1; 2]%nat
    [("Contract", [VStr "Month-to-month"; VStr "Month-to-month"; VStr "Two year"]);
     ("InternetService", [VStr "DSL"; VStr "Fiber optic"; VStr "No"]);
     ("tenure_bucket", [VStr "0-1 Year"; VStr "2-4 Years"; VStr "4+ Years"]);
     ("churn_label", [VInt 1; VInt 0; VInt 0])].

(** A cleaned table that lost its 'Contract' column. *)
Definition no_contract : DataFrame :=
  mkFrame [0; 1]%nat
    [("InternetService", [VStr "DSL"; VStr "No"]);
     ("tenure_bucket", [VStr "0-1 Year"; VStr "4+ Years"]);
     ("churn_label", [VInt 1; VInt 0])].

(** ** Checking [round64] against the machine's binary64 arithmetic *)

Definition machine_float (z : Z) : PrimFloat.float :=
  PrimFloat.of_uint63 (Uint63.of_Z z).

(** [a / b] rounded by [round64] is what the machine's division returns. *)
Definition agrees_on_quotient (a b : Z) : bool :=
  PrimFloat.eqb (to_binary64 (round64 (a # Z.to_pos b)))
                (PrimFloat.div (machine_float a) (machine_float b)).

(** The difference of two such quotients, rounded by [round64], is what the
    machine's subtraction returns. *)
Definition agrees_on_difference (a b c d : Z) : bool :=
  let x := round64 (a # Z.to_pos b) in
  let y := round64 (c # Z.to_pos d) in
  PrimFloat.eqb (to_binary64 (round64 (x - y)))
                (PrimFloat.sub (to_binary64 x) (to_binary64 y)).

Definition upto (n : nat) : list Z := map (fun k => Z.of_nat (S k)) (seq 0 n).

(** The delta of the worked scenario: [0.5 - 0.3333333333333333], which
    Python prints as [0.16666666666666669]. *)
Definition scenario_delta : Q := 3002399751580331 # 18014398509481984.

(** * Properties *)

(** ** Lists and masks *)

Lemma select_nil {A : Type} (m : list bool) : select m (@nil A) = [].
Proof. destruct m; reflexivity. Qed.

Lemma select_map_filter {A : Type} (f : A -> bool) (l : list A) :
  select (map f l) l = filter f l.
Proof.
  induction l as [|x l IH]; simpl; [reflexivity|].
  rewrite IH. reflexivity.
Qed.

Lemma select_all_true {A : Type} (m : list bool) (l : list A) :
  Forall (fun b => b = true) m -> length m = length l -> select m l = l.
Proof.
  intros Hall. revert l.
  induction Hall as [|b m Hb _ IH]; intros [|x l] Hlen; simpl in *; try discriminate.
  - reflexivity.
  - subst b. rewrite IH by lia. reflexivity.
Qed.

Lemma select_all_false {A : Type} (m : list bool) (l : list A) :
  Forall (fun b => b = false) m -> select m l = [].
Proof.
  intros Hall. revert l.
  induction Hall as [|b m Hb _ IH]; intros [|x l]; simpl; try reflexivity.
  subst b. apply IH.
Qed.

Lemma series_and_map {A : Type} (f g : A -> bool) (l : list A) :
  series_and (map f l) (map g l) = map (fun x => f x && g x) l.
Proof.
  induction l as [|x l IH]; simpl; [reflexivity|].
  rewrite IH. reflexivity.
Qed.

Lemma series_and_length (m1 m2 : list bool) :
  length m1 = length m2 -> length (series_and m1 m2) = length m1.
Proof.
  revert m2. induction m1 as [|a m1 IH]; intros [|b m2] H; simpl in *;
    try discriminate; [reflexivity|].
  rewrite IH by lia. reflexivity.
Qed.

Lemma series_and_true (m1 m2 : list bool) :
  Forall (fun b => b = true) m1 -> Forall (fun b => b = true) m2 ->
  Forall (fun b => b = true) (series_and m1 m2).
Proof.
  intros H1. revert m2.
  induction H1 as [|a m1 Ha _ IH]; intros m2 H2; simpl; [constructor|].
  destruct H2 as [|b m2 Hb H2]; constructor.
  - subst. reflexivity.
  - apply IH. exact H2.
Qed.

Lemma series_and_false_l (m1 m2 : list bool) :
  Forall (fun b => b = false) m1 -> Forall (fun b => b = false) (series_and m1 m2).
Proof.
  intros H1. revert m2.
  induction H1 as [|a m1 Ha _ IH]; intros [|b m2]; simpl; constructor.
  - subst. reflexivity.
  - apply IH.
Qed.

Lemma series_and_false_r (m1 m2 : list bool) :
  Forall (fun b => b = false) m2 -> Forall (fun b => b = false) (series_and m1 m2).
Proof.
  intros H2. revert m1.
  induction H2 as [|b m2 Hb _ IH]; intros [|a m1]; simpl; constructor.
  - subst. apply andb_false_r.
  - apply IH.
Qed.

(** ** Cell equality, membership and [unique] *)

Lemma value_eqb_refl (v : value) : value_eqb v v = true.
Proof.
  destruct v as [|b|z|q|s]; simpl; try reflexivity;
    try (apply Qeq_bool_iff; reflexivity).
  apply String.eqb_refl.
Qed.

Lemma isin1_In (v : value) (l : list value) : In v l -> isin1 v l = true.
Proof.
  intros H. apply existsb_exists. exists v. split; [exact H|apply value_eqb_refl].
Qed.

Lemma isin1_incl (v : value) (l l' : list value) :
  (forall w, In w l -> In w l') -> isin1 v l = true -> isin1 v l' = true.
Proof.
  intros Hincl H. apply existsb_exists in H. destruct H as [w [Hw Heq]].
  apply existsb_exists. exists w. split; [apply Hincl; exact Hw|exact Heq].
Qed.

Lemma isin1_nil (v : value) : isin1 v [] = false.
Proof. reflexivity. Qed.

Lemma unique_from_covers (s : Series) :
  forall seen v, In v s ->
    isin1 v seen = true \/ isin1 v (unique_from seen s) = true.
Proof.
  induction s as [|a s IH]; intros seen v Hin; [contradiction|].
  simpl. destruct (isin1 a seen) eqn:Ha.
  - destruct Hin as [->|Hin]; [left; exact Ha|apply IH; exact Hin].
  - destruct Hin as [->|Hin].
    + right. simpl. rewrite value_eqb_refl. reflexivity.
    + destruct (IH (a :: seen) v Hin) as [H|H].
      * simpl in H. apply orb_true_iff in H. destruct H as [H|H].
        -- right. simpl. rewrite H. reflexivity.
        -- left. exact H.
      * right. simpl. rewrite H. apply orb_true_r.
Qed.

Lemma unique_covers (s : Series) (v : value) :
  In v s -> isin1 v (unique s) = true.
Proof.
  intros H. destruct (unique_from_covers s [] v H) as [H'|H']; [discriminate|exact H'].
Qed.

(** ** Columns against rows *)

Lemma get_col_heads cols name col :
  get_col cols name = Some col -> cell (heads cols) name = Some (hd VNaN col).
Proof.
  induction cols as [|[n s] cols IH]; simpl; [discriminate|].
  destruct (String.eqb n name); [|exact IH].
  intros H. injection H as ->. reflexivity.
Qed.

Lemma get_col_tails cols name col :
  get_col cols name = Some col -> get_col (tails cols) name = Some (tl col).
Proof.
  induction cols as [|[n s] cols IH]; simpl; [discriminate|].
  destruct (String.eqb n name); [|exact IH].
  intros H. injection H as ->. reflexivity.
Qed.

Lemma get_col_some cols name :
  existsb (String.eqb name) (map fst cols) = true -> exists col, get_col cols name = Some col.
Proof.
  induction cols as [|[n s] cols IH]; simpl; [discriminate|].
  rewrite (String.eqb_sym name n).
  destruct (String.eqb n name); simpl; [intros _; exists s; reflexivity|exact IH].
Qed.

Lemma get_col_none cols name :
  existsb (String.eqb name) (map fst cols) = false -> get_col cols name = None.
Proof.
  induction cols as [|[n s] cols IH]; simpl; [reflexivity|].
  rewrite (String.eqb_sym name n).
  destruct (String.eqb n name); simpl; [discriminate|exact IH].
Qed.

Lemma get_col_In cols name col :
  get_col cols name = Some col -> In (name, col) cols.
Proof.
  induction cols as [|[n s] cols IH]; simpl; [discriminate|].
  destruct (String.eqb n name) eqn:E.
  - intros H. injection H as ->. apply String.eqb_eq in E. subst. left. reflexivity.
  - intros H. right. apply IH. exact H.
Qed.

Lemma has_column_getitem df name :
  has_column name df = true -> exists col, getitem df name = Ok col.
Proof.
  intros H. destruct (get_col_some (columns df) name H) as [col Hc].
  exists col. unfold getitem. rewrite Hc. reflexivity.
Qed.

Lemma getitem_has_column df name col :
  getitem df name = Ok col -> has_column name df = true.
Proof.
  unfold getitem, has_column, column_names. intros H.
  destruct (existsb (String.eqb name) (map fst (columns df))) eqn:E; [reflexivity|].
  rewrite (get_col_none _ _ E) in H. discriminate.
Qed.

Lemma getitem_length df name col :
  wf_frame df -> getitem df name = Ok col -> length col = length (index df).
Proof.
  unfold wf_frame, getitem. intros Hwf H.
  destruct (get_col (columns df) name) as [s|] eqn:E; [|discriminate].
  injection H as ->. apply get_col_In in E.
  rewrite Forall_forall in Hwf. exact (Hwf _ E).
Qed.

Lemma cells_of_rows name : forall idx cols col,
  get_col cols name = Some col -> length col = length idx ->
  map (fun r : customer => cell (snd r) name) (rows_of idx cols) = map Some col.
Proof.
  induction idx as [|i idx IH]; intros cols col Hget Hlen.
  - destruct col; [reflexivity|discriminate].
  - destruct col as [|x col]; [discriminate|]. simpl.
    rewrite (get_col_heads _ _ _ Hget). simpl. f_equal.
    apply IH.
    + exact (get_col_tails _ _ _ Hget).
    + simpl in Hlen. lia.
Qed.

Lemma isin_of_rows name selected idx cols col :
  get_col cols name = Some col -> length col = length idx ->
  isin col selected = map (row_isin name selected) (rows_of idx cols).
Proof.
  intros Hget Hlen. unfold isin.
  transitivity
    (map (fun o : option value => match o with Some v => isin1 v selected | None => false end)
         (map Some col)).
  - rewrite map_map. reflexivity.
  - rewrite <- (cells_of_rows name idx cols col Hget Hlen), map_map. reflexivity.
Qed.

Lemma heads_select_true m cols :
  heads (map (fun c => (fst c, select (true :: m) (snd c))) cols) = heads cols.
Proof.
  unfold heads. rewrite map_map. apply map_ext.
  intros [n [|x t]]; reflexivity.
Qed.

Lemma tails_select b m cols :
  (if b : bool
   then tails (map (fun c => (fst c, select (true :: m) (snd c))) cols)
   else map (fun c => (fst c, select (false :: m) (snd c))) cols)
  = map (fun c => (fst c, select m (snd c))) (tails cols).
Proof.
  unfold tails. destruct b; rewrite !map_map; apply map_ext;
    intros [n [|x t]]; simpl; try reflexivity; rewrite select_nil; reflexivity.
Qed.

(** Boolean indexing, column by column, keeps exactly the masked rows. *)
Lemma rows_of_select : forall m idx cols,
  rows_of (select m idx) (map (fun c => (fst c, select m (snd c))) cols)
  = select m (rows_of idx cols).
Proof.
  induction m as [|b m IH]; intros [|i idx] cols; try reflexivity.
  destruct b.
  - change (rows_of (select (true :: m) (i :: idx))
              (map (fun c => (fst c, select (true :: m) (snd c))) cols))
      with ((i, heads (map (fun c => (fst c, select (true :: m) (snd c))) cols))
            :: rows_of (select m idx)
                 (tails (map (fun c => (fst c, select (true :: m) (snd c))) cols))).
    rewrite heads_select_true, (tails_select true m cols), IH. reflexivity.
  - change (rows_of (select (false :: m) (i :: idx))
              (map (fun c => (fst c, select (false :: m) (snd c))) cols))
      with (rows_of (select m idx)
              (map (fun c => (fst c, select (false :: m) (snd c))) cols)).
    rewrite (tails_select false m cols), IH. reflexivity.
Qed.

Lemma rows_loc_mask df mask : rows (loc_mask df mask) = select mask (rows df).
Proof. apply rows_of_select. Qed.

Lemma rows_length df : length (rows df) = len df.
Proof.
  unfold rows, len. generalize (columns df).
  induction (index df) as [|i idx IH]; intros cols; simpl; [reflexivity|].
  rewrite IH. reflexivity.
Qed.

Lemma loc_mask_all_true df mask :
  wf_frame df -> Forall (fun b => b = true) mask -> length mask = len df ->
  loc_mask df mask = df.
Proof.
  intros Hwf Hall Hlen. destruct df as [idx cols]. unfold loc_mask, len in *. simpl in *.
  f_equal.
  - apply select_all_true; assumption.
  - unfold wf_frame in Hwf. simpl in Hwf.
    induction Hwf as [|[n s] cols Hc _ IH]; simpl; [reflexivity|].
    rewrite IH. simpl in Hc. rewrite select_all_true by (try assumption; lia).
    reflexivity.
Qed.

Lemma wf_loc_mask df mask :
  wf_frame df -> length mask = len df -> wf_frame (loc_mask df mask).
Proof.
  unfold wf_frame, loc_mask, len. simpl. intros Hwf Hlen.
  rewrite Forall_map. revert Hwf. apply Forall_impl. intros [n s]. simpl. intros Hs.
  clear -Hs Hlen. revert Hlen Hs. generalize (index df). revert s.
  induction mask as [|b m IH]; intros [|x s] [|i idx]; simpl; try discriminate; try reflexivity.
  intros Hlen Hs. destruct b; simpl; rewrite (IH s idx) by lia; reflexivity.
Qed.

(** ** The filter *)

Lemma isin_all_true col selected :
  (forall v, In v col -> isin1 v selected = true) ->
  Forall (fun b => b = true) (isin col selected).
Proof.
  intros H. unfold isin. rewrite Forall_map, Forall_forall. exact H.
Qed.

Lemma isin_nil_all_false col : Forall (fun b => b = false) (isin col []).
Proof.
  unfold isin. rewrite Forall_map, Forall_forall. intros v _. reflexivity.
Qed.

Lemma isin_length col selected : length (isin col selected) = length col.
Proof. unfold isin. apply length_map. Qed.

(** On text, membership in the selection is membership of the very string. *)
Lemma isin1_str (s : string) (selected : list value) :
  isin1 (VStr s) selected = true <-> In (VStr s) selected.
Proof.
  split; [|apply isin1_In].
  intros H. apply existsb_exists in H. destruct H as [w [Hw Heq]].
  destruct w as [|b|z|q|t]; simpl in Heq; try discriminate.
  apply String.eqb_eq in Heq. subst. exact Hw.
Qed.

Lemma filtered_df_unfold df contract internet contract_filter internet_filter :
  getitem df "Contract" = Ok contract ->
  getitem df "InternetService" = Ok internet ->
  filtered_df df contract_filter internet_filter
  = Ok (loc_mask df (series_and (isin contract contract_filter)
                                (isin internet internet_filter))).
Proof.
  intros Hc Hi. unfold filtered_df. simpl. rewrite Hc, Hi. reflexivity.
Qed.

Lemma getitem_get_col df name col :
  getitem df name = Ok col -> get_col (columns df) name = Some col.
Proof.
  unfold getitem. destruct (get_col (columns df) name); [|discriminate].
  intros H. injection H as ->. reflexivity.
Qed.

Lemma column_names_loc_mask df mask :
  column_names (loc_mask df mask) = column_names df.
Proof.
  unfold column_names, loc_mask. simpl. rewrite map_map. reflexivity.
Qed.

(** C2. Filter definition: on a table with the two filter columns, the
    filtered subset is a frame with the same columns whose rows are exactly
    the rows of the table whose 'Contract' cell is in the selected contract
    values and whose 'InternetService' cell is in the selected internet
    values, in the order of the table; the subset is determined by the three
    inputs. *)
Theorem filtered_df_keeps_exactly_the_selected_rows
    (df : DataFrame) (contract_filter internet_filter : list value) :
  wf_frame df ->
  has_column "Contract" df = true ->
  has_column "InternetService" df = true ->
  exists filtered,
    filtered_df df contract_filter internet_filter = Ok filtered /\
    column_names filtered = column_names df /\
    rows filtered = filter (keeps contract_filter internet_filter) (rows df) /\
    (forall r, In r (rows filtered) <->
               In r (rows df) /\
               row_isin "Contract" contract_filter r = true /\
               row_isin "InternetService" internet_filter r = true) /\
    (forall other,
        filtered_df df contract_filter internet_filter = Ok other -> other = filtered).
Proof.
  intros Hwf Hc Hi.
  destruct (has_column_getitem _ _ Hc) as [contract Hcontract].
  destruct (has_column_getitem _ _ Hi) as [internet Hinternet].
  pose proof (filtered_df_unfold df contract internet contract_filter internet_filter
                Hcontract Hinternet) as Hf.
  eexists. split; [exact Hf|].
  assert (Hrows :
    rows (loc_mask df (series_and (isin contract contract_filter)
                                  (isin internet internet_filter)))
    = filter (keeps contract_filter internet_filter) (rows df)).
  { rewrite rows_loc_mask. unfold rows.
    rewrite (isin_of_rows "Contract" contract_filter (index df) (columns df) contract
               (getitem_get_col _ _ _ Hcontract) (getitem_length _ _ _ Hwf Hcontract)).
    rewrite (isin_of_rows "InternetService" internet_filter (index df) (columns df) internet
               (getitem_get_col _ _ _ Hinternet) (getitem_length _ _ _ Hwf Hinternet)).
    rewrite series_and_map. apply select_map_filter. }
  split; [apply column_names_loc_mask|].
  split; [exact Hrows|].
  split.
  - intros r. rewrite Hrows, filter_In. unfold keeps. rewrite andb_true_iff. reflexivity.
  - intros other Hother. rewrite Hf in Hother. injection Hother as <-. reflexivity.
Qed.

(** C4. Empty selection: when the selected contract values or the selected
    internet values are empty, the filtered subset has no row and the segment
    churn rate is 0.0. *)
Theorem empty_selection_gives_empty_segment
    (df : DataFrame) (contract_filter internet_filter : list value) :
  has_column "Contract" df = true ->
  has_column "InternetService" df = true ->
  contract_filter = [] \/ internet_filter = [] ->
  exists filtered,
    filtered_df df contract_filter internet_filter = Ok filtered /\
    len filtered = 0%nat /\
    rows filtered = [] /\
    segment_churn_rate filtered = Ok (FVal 0).
Proof.
  intros Hc Hi Hempty.
  destruct (has_column_getitem _ _ Hc) as [contract Hcontract].
  destruct (has_column_getitem _ _ Hi) as [internet Hinternet].
  eexists. split; [exact (filtered_df_unfold _ _ _ _ _ Hcontract Hinternet)|].
  assert (Hidx : forall A (l : list A),
    select (series_and (isin contract contract_filter) (isin internet internet_filter)) l = []).
  { intros A l. apply select_all_false.
    destruct Hempty as [-> | ->].
    - apply series_and_false_l, isin_nil_all_false.
    - apply series_and_false_r, isin_nil_all_false. }
  repeat split.
  - unfold len, loc_mask. simpl. rewrite Hidx. reflexivity.
  - rewrite rows_loc_mask. apply Hidx.
  - unfold segment_churn_rate, empty, loc_mask. simpl. rewrite Hidx. reflexivity.
Qed.

(** C5. Full-selection identity: when the selected contract values are the
    distinct 'Contract' values of the table and the selected internet values
    are its distinct 'InternetService' values, the filtered subset is the
    table itself. *)
Theorem full_selection_is_identity
    (df : DataFrame) (contract internet contract_filter internet_filter : list value) :
  wf_frame df ->
  getitem df "Contract" = Ok contract ->
  getitem df "InternetService" = Ok internet ->
  (forall v, In v contract_filter <-> In v (unique contract)) ->
  (forall v, In v internet_filter <-> In v (unique internet)) ->
  filtered_df df contract_filter internet_filter = Ok df.
Proof.
  intros Hwf Hcontract Hinternet Hcf Hif.
  rewrite (filtered_df_unfold _ _ _ _ _ Hcontract Hinternet). f_equal.
  pose proof (getitem_length _ _ _ Hwf Hcontract) as Lc.
  pose proof (getitem_length _ _ _ Hwf Hinternet) as Li.
  apply loc_mask_all_true; [exact Hwf| |].
  - apply series_and_true; apply isin_all_true; intros v Hv.
    + apply (isin1_incl v (unique contract)); [apply Hcf|apply unique_covers; exact Hv].
    + apply (isin1_incl v (unique internet)); [apply Hif|apply unique_covers; exact Hv].
  - rewrite series_and_length; rewrite !isin_length; unfold len; lia.
Qed.

(** ** Loading *)

Lemma get_col_set_col_same cols name s : get_col (set_col cols name s) name = Some s.
Proof.
  induction cols as [|[n old] cols IH]; simpl.
  - rewrite String.eqb_refl. reflexivity.
  - destruct (String.eqb n name) eqn:E; simpl; rewrite E; [reflexivity|exact IH].
Qed.

Lemma get_col_set_col_other cols name s other :
  other <> name -> get_col (set_col cols name s) other = get_col cols other.
Proof.
  intros Hne. induction cols as [|[n old] cols IH]; simpl.
  - destruct (String.eqb name other) eqn:E; [|reflexivity].
    apply String.eqb_eq in E. congruence.
  - destruct (String.eqb n name) eqn:E; simpl.
    + apply String.eqb_eq in E. subst n.
      destruct (String.eqb name other) eqn:E; [|reflexivity].
      apply String.eqb_eq in E. congruence.
    + rewrite IH. reflexivity.
Qed.

Lemma churn_to_label_yes : churn_to_label (VStr "Yes") = VInt 1.
Proof. reflexivity. Qed.

Lemma churn_to_label_other (x : value) : x <> VStr "Yes" -> churn_to_label x = VInt 0.
Proof.
  intros Hne. destruct x as [|b|z|q|s]; try reflexivity.
  unfold churn_to_label, py_eq_str.
  destruct (String.eqb s "Yes") eqn:E; [|reflexivity].
  apply String.eqb_eq in E. subst. congruence.
Qed.

Lemma load_data_on_table (e : env) (df : DataFrame) :
  disk e = Csv df ->
  load_data e =
    if negb (has_column "churn_label" df) then
      if has_column "Churn" df then
        churn <- lift (getitem df "Churn") ;;
        ret (Some (setitem df "churn_label" (apply churn_to_label churn)))
      else
        st_error "❌ Neither 'churn_label' nor 'Churn' column found in dataset. Please re-run the cleaning pipeline." ;;
        ret None
    else ret (Some df).
Proof.
  intros Hdisk. unfold load_data, is_file, read_csv. rewrite Hdisk. simpl.
  destruct (negb (has_column "churn_label" df)).
  - destruct (has_column "Churn" df); [|reflexivity].
    destruct (getitem df "Churn"); reflexivity.
  - reflexivity.
Qed.

(** C1. Churn-label derivation: for a table without a 'churn_label' column
    and with a 'Churn' column, load_data returns the table extended by a
    'churn_label' column whose value in each row is 1 when the row's 'Churn'
    value is the string "Yes" and 0 for any other value; the row labels and
    the other columns are those of the table. *)
Theorem load_data_derives_churn_label (e : env) (df : DataFrame) :
  disk e = Csv df ->
  has_column "churn_label" df = false ->
  has_column "Churn" df = true ->
  exists loaded churn labels,
    load_data e = ([], Done (Some loaded)) /\
    getitem df "Churn" = Ok churn /\
    getitem loaded "churn_label" = Ok labels /\
    length labels = length churn /\
    (forall k x, nth_error churn k = Some x ->
       (x = VStr "Yes" -> nth_error labels k = Some (VInt 1)) /\
       (x <> VStr "Yes" -> nth_error labels k = Some (VInt 0))) /\
    index loaded = index df /\
    (forall name, name <> "churn_label" -> getitem loaded name = getitem df name).
Proof.
  intros Hdisk Hlabel Hchurn.
  destruct (has_column_getitem _ _ Hchurn) as [churn Hget].
  exists (setitem df "churn_label" (apply churn_to_label churn)), churn,
         (apply churn_to_label churn).
  split.
  { rewrite (load_data_on_table e df Hdisk), Hlabel, Hchurn, Hget. reflexivity. }
  split; [exact Hget|].
  split.
  { unfold getitem, setitem. simpl. rewrite get_col_set_col_same. reflexivity. }
  split; [apply length_map|].
  split.
  { intros k x Hk. unfold apply. rewrite nth_error_map, Hk. simpl. split.
    - intros ->. reflexivity.
    - intros Hne. rewrite (churn_to_label_other x Hne). reflexivity. }
  split; [reflexivity|].
  intros name Hne. unfold getitem, setitem. simpl.
  rewrite get_col_set_col_other by exact Hne. reflexivity.
Qed.

(** C10. A 'churn_label' column that is already there is taken as it is:
    load_data returns the parsed table unchanged and renders nothing, whatever
    the column holds and whether or not there is a 'Churn' column. *)
Theorem load_data_keeps_existing_churn_label (e : env) (df : DataFrame) :
  disk e = Csv df ->
  has_column "churn_label" df = true ->
  load_data e = ([], Done (Some df)).
Proof.
  intros Hdisk Hlabel.
  rewrite (load_data_on_table e df Hdisk), Hlabel. reflexivity.
Qed.

Lemma load_data_cases (e : env) :
  (disk e = NoFile /\
   load_data e =
     ([ErrorBox ("--- ERROR: Data file not found at " ++ DATA_FILE e ++ " ---");
       ErrorBox "Please make sure 'cleaned_telco_customers.csv' is in a 'data' folder next to this script."],
      Done None)) \/
  (disk e = Unparseable /\ load_data e = ([], Crashed ParserError)) \/
  (exists df, disk e = Csv df /\ has_column "churn_label" df = true /\
              load_data e = ([], Done (Some df))) \/
  (exists df churn, disk e = Csv df /\ has_column "churn_label" df = false /\
              has_column "Churn" df = true /\ getitem df "Churn" = Ok churn /\
              load_data e =
                ([], Done (Some (setitem df "churn_label" (apply churn_to_label churn))))) \/
  (exists df, disk e = Csv df /\ has_column "churn_label" df = false /\
              has_column "Churn" df = false /\
              load_data e =
                ([ErrorBox "❌ Neither 'churn_label' nor 'Churn' column found in dataset. Please re-run the cleaning pipeline."],
                 Done None)).
Proof.
  destruct (disk e) as [| |df] eqn:Hdisk.
  - left. split; [reflexivity|]. unfold load_data, is_file. rewrite Hdisk. reflexivity.
  - right. left. split; [reflexivity|].
    unfold load_data, is_file, read_csv. rewrite Hdisk. reflexivity.
  - right. right. rewrite (load_data_on_table e df Hdisk).
    destruct (has_column "churn_label" df) eqn:Hlabel.
    + left. exists df. auto.
    + right. destruct (has_column "Churn" df) eqn:Hchurn.
      * left. destruct (has_column_getitem _ _ Hchurn) as [churn Hget].
        exists df, churn. rewrite Hget. auto 6.
      * right. exists df. auto.
Qed.

Ltac load_cases e :=
  let Hd := fresh "Hdisk" in
  let Hl := fresh "Hlabel" in
  let Hc := fresh "Hchurn" in
  let Hg := fresh "Hget" in
  let Hr := fresh "Hload" in
  let df := fresh "df" in
  let c := fresh "churn" in
  destruct (load_data_cases e)
    as [[Hd Hr]|[[Hd Hr]|[[df [Hd [Hl Hr]]]|[[df [c [Hd [Hl [Hc [Hg Hr]]]]]]
        |[df [Hd [Hl [Hc Hr]]]]]]]].

Lemma load_data_renders_error_boxes (e : env) :
  forallb is_error_box (rendered (load_data e)) = true.
Proof. load_cases e; rewrite Hload; reflexivity. Qed.

(** ** The script around the load *)

Lemma dashboard_unfold (e : env) (u : user) :
  dashboard e u =
    match load_data e with
    | (page, Done None) => (page_config :: page ++ [page_title], Stopped)
    | (page, Done (Some df)) =>
        (page_config :: page ++ page_title :: rendered (render_dashboard df u),
         ending (render_dashboard df u))
    | (page, Stopped) => (page_config :: page, Stopped)
    | (page, Crashed x) => (page_config :: page, Crashed x)
    end.
Proof.
  unfold dashboard. destruct (load_data e) as [page [[df|]| |x]]; simpl; try reflexivity.
  destruct (render_dashboard df u) as [more r]. reflexivity.
Qed.

Lemma dashboard_on_load_failure (e : env) (u : user) :
  ending (load_data e) = Done None ->
  dashboard e u = (page_config :: rendered (load_data e) ++ [page_title], Stopped).
Proof.
  intros H. rewrite dashboard_unfold.
  destruct (load_data e) as [page out]. simpl in *. subst out. reflexivity.
Qed.

Lemma load_data_none_iff (e : env) :
  ending (load_data e) = Done None <->
  disk e = NoFile \/
  exists df, disk e = Csv df /\
             has_column "churn_label" df = false /\ has_column "Churn" df = false.
Proof.
  split.
  - intros Hnone. load_cases e; rewrite Hload in Hnone; simpl in Hnone; try discriminate.
    + left. assumption.
    + right. eexists. eauto.
  - intros [Hd|[df [Hd [Hl Hc]]]].
    + unfold load_data, is_file. rewrite Hd. reflexivity.
    + rewrite (load_data_on_table e df Hd), Hl, Hc. reflexivity.
Qed.

Lemma load_data_none_messages (e : env) :
  ending (load_data e) = Done None ->
  rendered (load_data e) <> [] /\
  forallb is_error_box (rendered (load_data e)) = true.
Proof.
  intros Hnone. split; [|apply load_data_renders_error_boxes].
  load_cases e; rewrite Hload in *; simpl in *; discriminate.
Qed.

Lemma load_data_some_silent (e : env) (df : DataFrame) :
  ending (load_data e) = Done (Some df) -> rendered (load_data e) = [].
Proof.
  intros Hsome. load_cases e; rewrite Hload in *; simpl in *; try discriminate; reflexivity.
Qed.

Lemma wf_setitem df name s :
  wf_frame df -> length s = length (index df) -> wf_frame (setitem df name s).
Proof.
  unfold wf_frame, setitem. simpl. intros Hwf Hlen.
  induction Hwf as [|[n old] cols Hc Hcols IH]; simpl.
  - constructor; [exact Hlen|constructor].
  - destruct (String.eqb n name); constructor; assumption.
Qed.

(** Loading keeps the frame well formed. *)
Lemma load_data_wf (e : env) (df loaded : DataFrame) :
  disk e = Csv df -> wf_frame df ->
  ending (load_data e) = Done (Some loaded) -> wf_frame loaded.
Proof.
  intros Hd Hwf Hsome.
  load_cases e; rewrite Hload in Hsome; simpl in Hsome; try discriminate;
    rewrite Hd in Hdisk; injection Hdisk as <-; injection Hsome as <-.
  - exact Hwf.
  - apply wf_setitem; [exact Hwf|].
    unfold apply. rewrite length_map. exact (getitem_length _ _ _ Hwf Hget).
Qed.

(** C3. Load failure: load_data returns no table exactly when the data file
    is missing or the parsed table has neither a 'churn_label' nor a 'Churn'
    column; in that case it has rendered error messages and nothing else,
    while a load that returns a table renders nothing; and when load_data
    returns no table the script stops right after the title, before any
    further processing. *)
Theorem load_data_fails_exactly_on_missing_input (e : env) :
  (ending (load_data e) = Done None <->
     disk e = NoFile \/
     exists df, disk e = Csv df /\
                has_column "churn_label" df = false /\ has_column "Churn" df = false) /\
  (ending (load_data e) = Done None ->
     rendered (load_data e) <> [] /\
     forallb is_error_box (rendered (load_data e)) = true) /\
  (forall df, ending (load_data e) = Done (Some df) -> rendered (load_data e) = []) /\
  (ending (load_data e) = Done None ->
     forall u, ending (dashboard e u) = Stopped /\
               rendered (dashboard e u)
               = page_config :: rendered (load_data e) ++ [page_title]).
Proof.
  split; [apply load_data_none_iff|].
  split; [apply load_data_none_messages|].
  split; [apply load_data_some_silent|].
  intros Hnone u. rewrite (dashboard_on_load_failure e u Hnone). split; reflexivity.
Qed.

(** C9, as amended. When loading fails, the page shows the error messages of
    load_data followed by the dashboard title, and the script stops there:
    no sidebar, metric, chart or table is rendered. *)
Theorem load_failure_renders_errors_then_title (e : env) (u : user) :
  ending (load_data e) = Done None ->
  exists errors,
    errors <> [] /\
    forallb is_error_box errors = true /\
    rendered (dashboard e u) = page_config :: errors ++ [page_title] /\
    ending (dashboard e u) = Stopped.
Proof.
  intros H. exists (rendered (load_data e)).
  destruct (load_data_none_messages e H) as [Hne Herr].
  rewrite (dashboard_on_load_failure e u H). auto.
Qed.

(** ** Reading the page of a composed script *)

Lemma rendered_bind {A B : Type} (m : script A) (k : A -> script B) :
  rendered (x <- m ;; k x)
  = rendered m ++ match ending m with Done a => rendered (k a) | _ => [] end.
Proof.
  destruct m as [page [a| |x]]; simpl.
  - destruct (k a). reflexivity.
  - rewrite app_nil_r. reflexivity.
  - rewrite app_nil_r. reflexivity.
Qed.

Lemma in_rendered_bind {A B : Type} (m : script A) (k : A -> script B) (e : element) :
  In e (rendered (x <- m ;; k x)) ->
  In e (rendered m) \/ exists a, ending m = Done a /\ In e (rendered (k a)).
Proof.
  rewrite rendered_bind, in_app_iff. intros [H|H]; [left; exact H|].
  destruct (ending m) as [a| |x]; [right; exists a; auto|contradiction|contradiction].
Qed.

Lemma rendered_lift {A : Type} (r : result A) : rendered (lift r) = [].
Proof. destruct r; reflexivity. Qed.

Lemma ending_lift {A : Type} (r : result A) (a : A) :
  ending (lift r) = Done a -> r = Ok a.
Proof. destruct r; simpl; intros H; inversion H. reflexivity. Qed.

(** One step of walking through the page of a sequence of statements. *)
Ltac page_step H :=
  match type of H with
  | In _ (rendered (bind _ _)) =>
      let a := fresh "a" in
      let Ha := fresh "Ha" in
      apply in_rendered_bind in H; destruct H as [H|[a [Ha H]]]
  | In _ (rendered (lift _)) => rewrite rendered_lift in H; contradiction
  | In _ (rendered (emit _)) => destruct H as [H|[]]
  | In _ (rendered (ret _)) => contradiction
  end.

Lemma getitem_loc_mask df mask name s :
  getitem df name = Ok s -> getitem (loc_mask df mask) name = Ok (select mask s).
Proof.
  intros H. apply getitem_get_col in H. unfold getitem, loc_mask. simpl.
  revert H. induction (columns df) as [|[n c] cols IH]; simpl; [discriminate|].
  destruct (String.eqb n name); [|exact IH].
  intros H. injection H as ->. reflexivity.
Qed.

Lemma in_rendered_bind_l {A B : Type} (m : script A) (k : A -> script B) (e : element) :
  In e (rendered m) -> In e (rendered (x <- m ;; k x)).
Proof. intros H. rewrite rendered_bind. apply in_or_app. left. exact H. Qed.

Lemma in_rendered_bind_r {A B : Type} (m : script A) (k : A -> script B) (e : element) (a : A) :
  ending m = Done a -> In e (rendered (k a)) -> In e (rendered (x <- m ;; k x)).
Proof. intros Hm H. rewrite rendered_bind, Hm. apply in_or_app. right. exact H. Qed.

Lemma select_In {A : Type} (m : list bool) (l : list A) (x : A) :
  In x (select m l) -> In x l.
Proof.
  revert l. induction m as [|b m IH]; intros [|y l]; simpl; try contradiction.
  destruct b; simpl; intuition.
Qed.

(** Averaging fewer rows of a column cannot fail where the column averages. *)
Lemma mean_select (m : list bool) (s : Series) (o : pyfloat) :
  mean s = Ok o -> exists o', mean (select m s) = Ok o'.
Proof.
  unfold mean. intros H.
  destruct (existsb is_str (filter notna s)) eqn:E; [discriminate|].
  assert (E' : existsb is_str (filter notna (select m s)) = false).
  { destruct (existsb is_str (filter notna (select m s))) eqn:E'; [|reflexivity].
    apply existsb_exists in E'. destruct E' as [x [Hx Hs]].
    apply filter_In in Hx. destruct Hx as [Hx Hn].
    assert (existsb is_str (filter notna s) = true); [|congruence].
    apply existsb_exists. exists x. split; [|exact Hs].
    apply filter_In. split; [exact (select_In _ _ _ Hx)|exact Hn]. }
  rewrite E'. destruct (filter notna (select m s)); eexists; reflexivity.
Qed.

Lemma segment_after_overall df mask o :
  overall_churn_rate df = Ok o ->
  exists s, segment_churn_rate (loc_mask df mask) = Ok s.
Proof.
  unfold overall_churn_rate, segment_churn_rate. simpl. intros H.
  destruct (getitem df "churn_label") as [labels|] eqn:Hl; [|discriminate].
  destruct (empty (loc_mask df mask)); simpl; [eexists; reflexivity|].
  rewrite (getitem_loc_mask _ mask _ _ Hl). exact (mean_select mask labels o H).
Qed.

Lemma render_dashboard_shows_overall df u c i o :
  getitem df "Contract" = Ok c ->
  getitem df "InternetService" = Ok i ->
  overall_churn_rate df = Ok o ->
  In (Metric "Overall Churn Rate" (Percent o) None) (rendered (render_dashboard df u)).
Proof.
  intros Hc Hi Ho. unfold render_dashboard.
  eapply in_rendered_bind_r; [reflexivity|].
  eapply in_rendered_bind_r; [simpl; rewrite Hc; reflexivity|].
  eapply in_rendered_bind_r; [reflexivity|].
  eapply in_rendered_bind_r; [simpl; rewrite Hi; reflexivity|].
  eapply in_rendered_bind_r; [reflexivity|].
  eapply in_rendered_bind_r;
    [rewrite (filtered_df_unfold _ _ _ _ _ Hc Hi); reflexivity|].
  eapply in_rendered_bind_r; [rewrite Ho; reflexivity|].
  match goal with
  | |- context [segment_churn_rate (loc_mask df ?m)] =>
      destruct (segment_after_overall df m o Ho) as [s Hs]
  end.
  eapply in_rendered_bind_r; [rewrite Hs; reflexivity|].
  eapply in_rendered_bind_r; [reflexivity|].
  eapply in_rendered_bind_r; [reflexivity|].
  apply in_rendered_bind_l. left. reflexivity.
Qed.

Lemma overall_metric_in_render df u x d :
  In (Metric "Overall Churn Rate" x d) (rendered (render_dashboard df u)) ->
  exists c i o,
    getitem df "Contract" = Ok c /\
    getitem df "InternetService" = Ok i /\
    overall_churn_rate df = Ok o /\ x = Percent o.
Proof.
  unfold render_dashboard, st_sidebar_multiselect, st_sidebar_header, st_header, st_metric,
    st_markdown, st_plotly_chart, st_dataframe.
  intros H.
  repeat (page_step H; try discriminate).
  injection H as <- _.
  repeat match goal with
  | Hl : ending (lift _) = Done _ |- _ => apply ending_lift in Hl
  end.
  destruct (getitem df "Contract") as [c|] eqn:Hc; [|discriminate].
  destruct (getitem df "InternetService") as [i|] eqn:Hi; [|discriminate].
  match goal with
  | Ho : overall_churn_rate df = Ok ?o |- _ => exists c, i, o; auto
  end.
Qed.

Lemma overall_metric_in_dashboard e u x d :
  In (Metric "Overall Churn Rate" x d) (rendered (dashboard e u)) ->
  exists df c i o,
    ending (load_data e) = Done (Some df) /\
    getitem df "Contract" = Ok c /\
    getitem df "InternetService" = Ok i /\
    overall_churn_rate df = Ok o /\ x = Percent o.
Proof.
  rewrite dashboard_unfold.
  pose proof (load_data_renders_error_boxes e) as Herr.
  rewrite forallb_forall in Herr.
  assert (Hpage : ~ In (Metric "Overall Churn Rate" x d) (rendered (load_data e))).
  { intros Hin. apply Herr in Hin. discriminate. }
  destruct (load_data e) as [page [[df|]| |exc]]; simpl in *; intros [H|H]; try discriminate.
  - apply in_app_iff in H. destruct H as [H|[H|H]]; [contradiction|discriminate|].
    destruct (overall_metric_in_render df u x d H) as [c [i [o [Hc [Hi [Ho Hx]]]]]].
    exists df, c, i, o. auto.
  - apply in_app_iff in H. destruct H as [H|[H|[]]]; [contradiction|discriminate].
  - contradiction.
  - contradiction.
Qed.

Lemma dashboard_shows_overall e u df c i o :
  ending (load_data e) = Done (Some df) ->
  getitem df "Contract" = Ok c ->
  getitem df "InternetService" = Ok i ->
  overall_churn_rate df = Ok o ->
  In (Metric "Overall Churn Rate" (Percent o) None) (rendered (dashboard e u)).
Proof.
  intros Hload Hc Hi Ho. rewrite dashboard_unfold.
  destruct (load_data e) as [page out]. simpl in Hload. subst out. simpl.
  right. apply in_or_app. right. right.
  exact (render_dashboard_shows_overall df u c i o Hc Hi Ho).
Qed.

(** C8. The overall churn rate does not depend on the filters: when a run
    shows an overall churn rate, a run on the same data file with any other
    selection shows an overall churn rate too, and can show only that same
    one, which is the mean of 'churn_label' over the whole loaded table. *)
Theorem overall_churn_rate_ignores_the_filters (e : env) (u1 u2 : user) (x1 : shown) :
  shows_overall (rendered (dashboard e u1)) x1 ->
  shows_overall (rendered (dashboard e u2)) x1 /\
  (forall x2, shows_overall (rendered (dashboard e u2)) x2 -> x2 = x1) /\
  exists df labels o,
    ending (load_data e) = Done (Some df) /\
    getitem df "churn_label" = Ok labels /\
    mean labels = Ok o /\
    x1 = Percent o.
Proof.
  intros [d1 H1].
  destruct (overall_metric_in_dashboard e u1 x1 d1 H1)
    as [df [c [i [o [Hload [Hc [Hi [Ho ->]]]]]]]].
  split.
  { exists None. exact (dashboard_shows_overall e u2 df c i o Hload Hc Hi Ho). }
  split.
  { intros x2 [d2 H2].
    destruct (overall_metric_in_dashboard e u2 x2 d2 H2)
      as [df2 [_ [_ [o2 [Hload2 [_ [_ [Ho2 ->]]]]]]]].
    rewrite Hload in Hload2. injection Hload2 as <-.
    rewrite Ho in Ho2. injection Ho2 as <-. reflexivity. }
  unfold overall_churn_rate in Ho. simpl in Ho.
  destruct (getitem df "churn_label") as [labels|] eqn:Hl; [|discriminate].
  exists df, labels, o. auto.
Qed.

(** ** Rounding to binary64 *)

Lemma rne_nonneg (x : Q) : 0 <= x -> (0 <= rne x)%Z.
Proof.
  intros Hx. pose proof (Qfloor_resp_le _ _ Hx) as Hf.
  change (Qfloor 0) with 0%Z in Hf. unfold rne.
  destruct (Qcompare (x - inject_Z (Qfloor x)) (1 # 2)); try lia.
  destruct (Z.even (Qfloor x)); lia.
Qed.

Lemma rne_le (x : Q) (n : Z) : x <= inject_Z n -> (rne x <= n)%Z.
Proof.
  intros Hx. pose proof (Qfloor_resp_le _ _ Hx) as Hf. rewrite Qfloor_Z in Hf.
  unfold rne.
  destruct (Z_le_lt_eq_dec _ _ Hf) as [Hlt|Heq].
  - destruct (Qcompare (x - inject_Z (Qfloor x)) (1 # 2)); try lia.
    destruct (Z.even (Qfloor x)); lia.
  - rewrite Heq.
    destruct (Qcompare (x - inject_Z n) (1 # 2)) eqn:Hcmp.
    + apply Qeq_alt in Hcmp. lra.
    + lia.
    + apply Qgt_alt in Hcmp. lra.
Qed.

Lemma ilog2_le_0 (q : Q) : (0 < Qnum q)%Z -> q <= 1 -> (ilog2 q <= 0)%Z.
Proof.
  intros Hpos Hle. unfold Qle in Hle. simpl in Hle.
  assert (Hn : (Qnum q <= Zpos (Qden q))%Z) by lia.
  pose proof (Z.log2_le_mono _ _ Hn) as Hlog.
  unfold ilog2. destruct (Qle_bool _ q); lia.
Qed.

(** Rounding keeps a value between 0 and 1 there: 0 and 1 are binary64
    values. *)
Lemma round64_unit (q : Q) : 0 <= q <= 1 -> 0 <= round64 q <= 1.
Proof.
  intros [Hlo Hhi]. unfold round64.
  pose proof (Qred_correct q) as Hr.
  destruct (Qred q) as [rn rd] eqn:Hred. simpl Qnum.
  destruct rn as [|n|n].
  - split; [apply Qle_refl|discriminate].
  - set (a := Qabs (Zpos n # rd)).
    assert (Ha : a == q) by (unfold a; simpl; exact Hr).
    assert (Hp : (Z.max (ilog2 a - 52) (-1074) <= 0)%Z).
    { assert ((ilog2 a <= 0)%Z); [|lia].
      apply ilog2_le_0; [reflexivity|]. rewrite Ha. exact Hhi. }
    set (p := Z.max (ilog2 a - 52) (-1074)) in *.
    unfold pow2. apply Z.leb_le in Hp. rewrite Hp. apply Z.leb_le in Hp.
    change (Zpos n <? 0)%Z with false. cbv iota.
    rewrite Qred_correct.
    assert (HN : (0 < 2 ^ (- p))%Z) by (apply Z.pow_pos_nonneg; lia).
    set (N := (2 ^ (- p))%Z) in *.
    assert (HNq : 0 < inject_Z N) by (unfold Qlt; simpl; lia).
    assert (Hx : a / / inject_Z N <= inject_Z N).
    { unfold Qdiv. rewrite Qinv_involutive, Ha.
      rewrite <- (Qmult_1_l (inject_Z N)) at 2.
      apply Qmult_le_compat_r; [exact Hhi|apply Qlt_le_weak; exact HNq]. }
    assert (Hx0 : 0 <= a / / inject_Z N).
    { unfold Qdiv. rewrite Qinv_involutive, Ha.
      apply Qmult_le_0_compat; [exact Hlo|apply Qlt_le_weak; exact HNq]. }
    pose proof (rne_le _ _ Hx) as Hk. pose proof (rne_nonneg _ Hx0) as Hk0.
    set (k := rne (a / / inject_Z N)) in *.
    split.
    + apply Qmult_le_0_compat; [unfold Qle; simpl; lia|].
      apply Qinv_le_0_compat. apply Qlt_le_weak. exact HNq.
    + apply (Qle_shift_div_r (inject_Z k) (inject_Z N) 1 HNq).
      rewrite Qmult_1_l. rewrite <- Zle_Qle. exact Hk.
  - exfalso. rewrite <- Hr in Hlo. unfold Qle in Hlo. simpl in Hlo. lia.
Qed.

Lemma round64_eq (q q' : Q) : q == q' -> round64 q = round64 q'.
Proof. intros H. unfold round64. rewrite (Qred_complete q q' H). reflexivity. Qed.

(** ** The mean of a churn indicator *)

Lemma binary_clean (s : Series) :
  binary s -> filter notna s = s /\ existsb is_str s = false.
Proof.
  induction 1 as [|v s [-> | ->] _ [IHf IHs]]; simpl; try rewrite IHf; auto.
Qed.

Lemma binary_total_bounds (s : Series) :
  binary s -> (0 <= total s /\ total s <= inject_Z (Z.of_nat (length s)))%Q.
Proof.
  induction 1 as [|v s Hv _ [IHlo IHhi]].
  - simpl. split; apply Qle_refl.
  - change (length (v :: s)) with (S (length s)).
    rewrite Nat2Z.inj_succ. unfold Z.succ. rewrite inject_Z_plus.
    change (total (v :: s)) with (num_or_zero v + total s)%Q.
    destruct Hv as [-> | ->]; simpl num_or_zero; simpl inject_Z at 1.
    + split.
      * rewrite Qplus_0_l. exact IHlo.
      * rewrite Qplus_0_l. apply Qle_trans with (1 := IHhi).
        rewrite <- (Qplus_0_r (inject_Z (Z.of_nat (length s)))) at 1.
        apply Qplus_le_compat; [apply Qle_refl|discriminate].
    + split.
      * rewrite <- (Qplus_0_l 0). apply Qplus_le_compat; [discriminate|exact IHlo].
      * rewrite Qplus_comm. apply Qplus_le_compat; [exact IHhi|apply Qle_refl].
Qed.

Lemma binary_mean_in_unit_interval (labels : Series) :
  binary labels -> labels <> [] ->
  exists q, mean labels = Ok (FVal q) /\ in_unit_interval (FVal q).
Proof.
  intros Hbin Hne.
  destruct (binary_clean labels Hbin) as [Hf Hs].
  destruct (binary_total_bounds labels Hbin) as [Hlo Hhi].
  unfold mean. rewrite Hf, Hs.
  destruct labels as [|v rest]; [contradiction|].
  eexists. split; [reflexivity|].
  assert (Hpos : (0 < inject_Z (Z.of_nat (length (v :: rest))))%Q).
  { unfold Qlt. simpl. lia. }
  simpl in_unit_interval. apply round64_unit. split.
  - apply Qle_shift_div_l; [exact Hpos|]. rewrite Qmult_0_l. exact Hlo.
  - apply Qle_shift_div_r; [exact Hpos|]. rewrite Qmult_1_l. exact Hhi.
Qed.

(** On a table with at least one customer and a binary indicator the overall
    churn rate is a number between 0 and 1. *)
Lemma overall_churn_rate_bounded_with_customers (df : DataFrame) (labels : Series) :
  getitem df "churn_label" = Ok labels ->
  binary labels -> labels <> [] ->
  exists q, overall_churn_rate df = Ok (FVal q) /\ in_unit_interval (FVal q).
Proof.
  intros Hget Hbin Hne. unfold overall_churn_rate. simpl. rewrite Hget.
  apply binary_mean_in_unit_interval; assumption.
Qed.

(** The indicator load_data derives is binary. *)
Lemma derived_labels_binary (churn : Series) : binary (apply churn_to_label churn).
Proof.
  unfold binary, apply. rewrite Forall_map, Forall_forall. intros x _.
  unfold churn_to_label. destruct (py_eq_str x "Yes"); auto.
Qed.

(** C6, at the table that breaks it. A data file with the header line and no
    customer loads as a valid table (the 'churn_label' column is there and
    holds no value other than 0 and 1), the dashboard renders to the end, and
    the overall churn rate it shows is nan, which is not between 0.0 and 1.0;
    the segment rate next to it is guarded against the empty table and is
    0.0. *)
Theorem overall_churn_rate_of_header_only_file_is_nan :
  load_data (mkEnv telco_file (Csv header_only)) = ([], Done (Some header_only)) /\
  wf_frame header_only /\
  getitem header_only "churn_label" = Ok [] /\
  binary [] /\
  overall_churn_rate header_only = Ok FNaN /\
  ~ in_unit_interval FNaN /\
  segment_churn_rate header_only = Ok (FVal 0) /\
  ending (dashboard (mkEnv telco_file (Csv header_only)) untouched) = Done tt /\
  In (Metric "Overall Churn Rate" (Percent FNaN) None)
     (rendered (dashboard (mkEnv telco_file (Csv header_only)) untouched)).
Proof.
  split; [reflexivity|].
  split; [repeat constructor|].
  split; [reflexivity|].
  split; [constructor|].
  split; [reflexivity|].
  split; [intros H; exact H|].
  split; [reflexivity|].
  split; [reflexivity|].
  vm_compute. tauto.
Qed.

(** ** The worked scenario *)

Lemma getitem_setitem_same df name s : getitem (setitem df name s) name = Ok s.
Proof. unfold getitem, setitem. simpl. rewrite get_col_set_col_same. reflexivity. Qed.

Lemma getitem_setitem_other df name s other :
  other <> name -> getitem (setitem df name s) other = getitem df other.
Proof.
  intros Hne. unfold getitem, setitem. simpl.
  rewrite get_col_set_col_other by exact Hne. reflexivity.
Qed.

Lemma empty_false df name s :
  index df <> [] -> getitem df name = Ok s -> empty df = false.
Proof.
  intros Hidx Hget. apply getitem_get_col in Hget. unfold empty.
  destruct (index df); [contradiction|].
  destruct (columns df); [discriminate|reflexivity].
Qed.

(** C9, as stated, fails: with the data file missing the load fails, and yet
    the page holds the dashboard title, which is not error text. *)
Lemma title_is_rendered_on_load_failure :
  ending (load_data (mkEnv telco_file NoFile)) = Done None /\
  rendered (dashboard (mkEnv telco_file NoFile) untouched)
  = [page_config;
     ErrorBox "--- ERROR: Data file not found at data/cleaned_telco_customers.csv ---";
     ErrorBox "Please make sure 'cleaned_telco_customers.csv' is in a 'data' folder next to this script.";
     page_title] /\
  ~ error_text_only (rendered (dashboard (mkEnv telco_file NoFile) untouched)).
Proof.
  split; [reflexivity|].
  split; [reflexivity|].
  intros Honly.
  destruct (Honly page_title) as [[l [t H]]|[msg H]]; try discriminate.
  vm_compute. tauto.
Qed.

(** ** The theorems at sample inputs *)

Lemma wf_three_customers : wf_frame three_customers.
Proof. repeat constructor. Qed.

Lemma wf_three_labelled : wf_frame three_labelled.
Proof. repeat constructor. Qed.

Lemma load_data_derives_churn_label_at_three_customers :
  has_column "churn_label" three_customers = false /\
  has_column "Churn" three_customers = true /\
  exists loaded,
    load_data (mkEnv telco_file (Csv three_customers)) = ([], Done (Some loaded)) /\
    getitem loaded "churn_label" = Ok [VInt 1; VInt 0; VInt 0].
Proof.
  split; [reflexivity|]. split; [reflexivity|].
  destruct (load_data_derives_churn_label (mkEnv telco_file (Csv three_customers))
              three_customers eq_refl eq_refl eq_refl)
    as [loaded [churn [labels [Hload [Hchurn [Hlabels _]]]]]].
  exists loaded. split; [exact Hload|].
  vm_compute in Hload. injection Hload as <-. reflexivity.
Defined.

Lemma filtered_df_keeps_exactly_the_selected_rows_at_three_labelled :
  wf_frame three_labelled /\
  has_column "Contract" three_labelled = true /\
  has_column "InternetService" three_labelled = true /\
  exists filtered,
    filtered_df three_labelled [monthly] [VStr "No"; VStr "DSL"] = Ok filtered /\
    rows filtered
    = filter (keeps [monthly] [VStr "No"; VStr "DSL"]) (rows three_labelled) /\
    index filtered = [0%nat].
Proof.
  split; [exact wf_three_labelled|]. split; [reflexivity|]. split; [reflexivity|].
  destruct (filtered_df_keeps_exactly_the_selected_rows three_labelled
              [monthly] [VStr "No"; VStr "DSL"] wf_three_labelled eq_refl eq_refl)
    as [filtered [Hf [_ [Hrows _]]]].
  exists filtered. split; [exact Hf|]. split; [exact Hrows|].
  vm_compute in Hf. injection Hf as <-. reflexivity.
Defined.

Lemma empty_selection_at_three_labelled :
  has_column "Contract" three_labelled = true /\
  has_column "InternetService" three_labelled = true /\
  exists filtered,
    filtered_df three_labelled [] [VStr "DSL"] = Ok filtered /\
    len filtered = 0%nat /\
    rows filtered = [] /\
    segment_churn_rate filtered = Ok (FVal 0).
Proof.
  split; [reflexivity|]. split; [reflexivity|].
  apply (empty_selection_gives_empty_segment three_labelled [] [VStr "DSL"]);
    [reflexivity|reflexivity|left; reflexivity].
Defined.

Lemma full_selection_at_three_labelled :
  wf_frame three_labelled /\
  filtered_df three_labelled [two_year; monthly] [VStr "No"; VStr "Fiber optic"; VStr "DSL"]
  = Ok three_labelled.
Proof.
  split; [exact wf_three_labelled|].
  apply (full_selection_is_identity three_labelled
           [monthly; monthly; two_year] [VStr "DSL"; VStr "Fiber optic"; VStr "No"]).
  - exact wf_three_labelled.
  - reflexivity.
  - reflexivity.
  - intros v. change (unique [monthly; monthly; two_year]) with [monthly; two_year].
    simpl. tauto.
  - intros v.
    change (unique [VStr "DSL"; VStr "Fiber optic"; VStr "No"])
      with [VStr "DSL"; VStr "Fiber optic"; VStr "No"].
    simpl. tauto.
Defined.

Lemma overall_churn_rate_same_for_two_selections :
  shows_overall (rendered (dashboard (mkEnv telco_file (Csv three_customers)) untouched))
                (Percent (FVal (round64 (1 # 3)))) /\
  shows_overall (rendered (dashboard (mkEnv telco_file (Csv three_customers)) monthly_only))
                (Percent (FVal (round64 (1 # 3)))) /\
  (forall x2,
     shows_overall (rendered (dashboard (mkEnv telco_file (Csv three_customers)) monthly_only))
                   x2 ->
     x2 = Percent (FVal (round64 (1 # 3)))).
Proof.
  assert (H1 : shows_overall
                 (rendered (dashboard (mkEnv telco_file (Csv three_customers)) untouched))
                 (Percent (FVal (round64 (1 # 3))))).
  { exists None. vm_compute. tauto. }
  split; [exact H1|].
  destruct (overall_churn_rate_ignores_the_filters
              (mkEnv telco_file (Csv three_customers)) untouched monthly_only
              (Percent (FVal (round64 (1 # 3)))) H1) as [H2 [Hsame _]].
  split; [exact H2|exact Hsame].
Defined.

Lemma load_data_fails_on_missing_file_and_on_missing_columns :
  ending (load_data (mkEnv telco_file NoFile)) = Done None /\
  ending (load_data (mkEnv telco_file (Csv no_churn_columns))) = Done None /\
  ending (dashboard (mkEnv telco_file (Csv no_churn_columns)) untouched) = Stopped.
Proof.
  split; [reflexivity|].
  assert (H : ending (load_data (mkEnv telco_file (Csv no_churn_columns))) = Done None).
  { apply (proj1 (load_data_fails_exactly_on_missing_input
                    (mkEnv telco_file (Csv no_churn_columns)))).
    right. exists no_churn_columns. repeat split; reflexivity. }
  split; [exact H|].
  exact (proj1 (proj2 (proj2 (proj2 (load_data_fails_exactly_on_missing_input
                                       (mkEnv telco_file (Csv no_churn_columns))))) H
                 untouched)).
Defined.

Lemma load_failure_page_at_missing_columns :
  ending (load_data (mkEnv telco_file (Csv no_churn_columns))) = Done None /\
  exists errors,
    errors <> [] /\
    forallb is_error_box errors = true /\
    rendered (dashboard (mkEnv telco_file (Csv no_churn_columns)) monthly_only)
    = page_config :: errors ++ [page_title] /\
    ending (dashboard (mkEnv telco_file (Csv no_churn_columns)) monthly_only) = Stopped.
Proof.
  split; [reflexivity|].
  apply (load_failure_renders_errors_then_title
           (mkEnv telco_file (Csv no_churn_columns)) monthly_only).
  reflexivity.
Defined.

Lemma load_data_keeps_labels_of_three_labelled :
  has_column "churn_label" three_labelled = true /\
  load_data (mkEnv telco_file (Csv three_labelled)) = ([], Done (Some three_labelled)).
Proof.
  split; [reflexivity|].
  apply (load_data_keeps_existing_churn_label (mkEnv telco_file (Csv three_labelled))
           three_labelled); reflexivity.
Defined.

(** * Further properties of the script *)

(** ** A run that reaches the end *)

Lemma has_column_loc_mask name df mask :
  has_column name (loc_mask df mask) = has_column name df.
Proof. unfold has_column. rewrite column_names_loc_mask. reflexivity. Qed.

Lemma overall_has_churn_label df o :
  overall_churn_rate df = Ok o -> has_column "churn_label" df = true.
Proof.
  unfold overall_churn_rate. simpl.
  destruct (getitem df "churn_label") as [labels|] eqn:Hl; [|discriminate].
  intros _. exact (getitem_has_column _ _ _ Hl).
Qed.

Lemma render_dashboard_complete df u contract internet overall segment :
  getitem df "Contract" = Ok contract ->
  getitem df "InternetService" = Ok internet ->
  has_column "tenure_bucket" df = true ->
  overall_churn_rate df = Ok overall ->
  segment_churn_rate (loc_mask df (filter_mask contract internet u)) = Ok segment ->
  render_dashboard df u
  = (full_page contract internet u (loc_mask df (filter_mask contract internet u))
       overall segment,
     Done tt).
Proof.
  intros Hc Hi Ht Ho Hs.
  pose proof (getitem_has_column _ _ _ Hc) as Hhc.
  pose proof (overall_has_churn_label _ _ Ho) as Hhl.
  unfold render_dashboard, st_sidebar_multiselect, st_sidebar_header, st_header, st_metric,
    st_markdown, st_plotly_chart, st_dataframe, full_page.
  simpl. rewrite Hc. simpl. rewrite Hi. simpl.
  rewrite (filtered_df_unfold _ _ _ _ _ Hc Hi). simpl. rewrite Ho. simpl.
  fold (selection (chosen_contract u) (unique contract)).
  fold (selection (chosen_internet u) (unique internet)).
  fold (filter_mask contract internet u).
  rewrite Hs. simpl.
  unfold px_histogram. rewrite !has_column_loc_mask, Hhc, Hhl, Ht. simpl.
  reflexivity.
Qed.

Lemma ending_bind {A B : Type} (m : script A) (k : A -> script B) :
  ending (x <- m ;; k x)
  = match ending m with
    | Done a => ending (k a)
    | Stopped => Stopped
    | Crashed x => Crashed x
    end.
Proof.
  destruct m as [page [a| |x]]; simpl; try reflexivity.
  destruct (k a). reflexivity.
Qed.

Lemma has_column_false_getitem df name :
  has_column name df = false -> getitem df name = Raise (KeyError name).
Proof.
  intros H. unfold getitem. rewrite (get_col_none _ _ H). reflexivity.
Qed.

Lemma render_dashboard_ending df u :
  ending (render_dashboard df u) = Done tt <->
  has_column "Contract" df = true /\
  has_column "InternetService" df = true /\
  has_column "tenure_bucket" df = true /\
  exists o, overall_churn_rate df = Ok o.
Proof.
  split.
  - unfold render_dashboard. intros H.
    repeat (rewrite ending_bind in H; simpl ending in H).
    destruct (getitem df "Contract") as [c|] eqn:Hc; simpl in H; [|discriminate].
    repeat (rewrite ending_bind in H; simpl ending in H).
    destruct (getitem df "InternetService") as [i|] eqn:Hi; simpl in H; [|discriminate].
    repeat (rewrite ending_bind in H; simpl ending in H).
    rewrite (filtered_df_unfold _ _ _ _ _ Hc Hi) in H. simpl in H.
    repeat (rewrite ending_bind in H; simpl ending in H).
    destruct (overall_churn_rate df) as [o|] eqn:Ho; simpl in H; [|discriminate].
    repeat (rewrite ending_bind in H; simpl ending in H).
    match type of H with
    | context [segment_churn_rate ?f] => destruct (segment_churn_rate f); simpl in H
    end; [|discriminate].
    repeat (rewrite ending_bind in H; simpl ending in H).
    unfold px_histogram in H. rewrite !has_column_loc_mask in H.
    rewrite (getitem_has_column _ _ _ Hc), (overall_has_churn_label _ _ Ho) in H.
    simpl in H.
    repeat (rewrite ending_bind in H; simpl ending in H).
    destruct (has_column "tenure_bucket" df) eqn:Ht; simpl in H; [|discriminate].
    repeat split; eauto using getitem_has_column.
  - intros [Hc [Hi [Ht [o Ho]]]].
    destruct (has_column_getitem _ _ Hc) as [c Hgc].
    destruct (has_column_getitem _ _ Hi) as [i Hgi].
    destruct (segment_after_overall df (filter_mask c i u) o Ho) as [s Hs].
    rewrite (render_dashboard_complete df u c i o s Hgc Hgi Ht Ho Hs). reflexivity.
Qed.

Lemma dashboard_after_load e u df :
  ending (load_data e) = Done (Some df) ->
  dashboard e u
  = (page_config :: page_title :: rendered (render_dashboard df u),
     ending (render_dashboard df u)).
Proof.
  intros Hload. rewrite dashboard_unfold.
  pose proof (load_data_some_silent e df Hload) as Hsilent.
  destruct (load_data e) as [page out]. simpl in *. subst. reflexivity.
Qed.

Lemma dashboard_ending_done e u :
  ending (dashboard e u) = Done tt <->
  exists df,
    ending (load_data e) = Done (Some df) /\
    has_column "Contract" df = true /\
    has_column "InternetService" df = true /\
    has_column "tenure_bucket" df = true /\
    exists o, overall_churn_rate df = Ok o.
Proof.
  split.
  - intros H. rewrite dashboard_unfold in H.
    destruct (load_data e) as [page [[df|]| |x]] eqn:Hload; simpl in H; try discriminate.
    exists df. split; [reflexivity|]. apply (render_dashboard_ending df u). exact H.
  - intros [df [Hload Hcols]].
    rewrite (dashboard_after_load e u df Hload). simpl.
    apply (render_dashboard_ending df u). exact Hcols.
Qed.

(** X1. The script runs to its last statement exactly when load_data returns
    a table that has the columns 'Contract', 'InternetService' and
    'tenure_bucket' and whose 'churn_label' column can be averaged; the
    widget state plays no part in it. *)
Theorem dashboard_completes_iff (e : env) (u : user) :
  ending (dashboard e u) = Done tt <->
  exists df,
    ending (load_data e) = Done (Some df) /\
    has_column "Contract" df = true /\
    has_column "InternetService" df = true /\
    has_column "tenure_bucket" df = true /\
    exists o, overall_churn_rate df = Ok o.
Proof. apply dashboard_ending_done. Qed.

(** X2. load_data does not check the filter columns: on a loaded table
    without a 'Contract' column the script raises KeyError('Contract') right
    after the sidebar header, and on one with 'Contract' but without
    'InternetService' it raises KeyError('InternetService') after the first
    multiselect; the page then holds the title and those sidebar elements
    only. *)
Theorem dashboard_raises_without_filter_column (e : env) (u : user) (df : DataFrame) :
  ending (load_data e) = Done (Some df) ->
  (has_column "Contract" df = false ->
   dashboard e u
   = ([page_config; page_title; SidebarHeader "Customer Filters"],
      Crashed (KeyError "Contract"))) /\
  (forall contract,
     getitem df "Contract" = Ok contract ->
     has_column "InternetService" df = false ->
     dashboard e u
     = ([page_config; page_title; SidebarHeader "Customer Filters";
         SidebarMultiselect "Select Contract Type" (unique contract)
           (selection (chosen_contract u) (unique contract))],
        Crashed (KeyError "InternetService"))).
Proof.
  intros Hload. rewrite (dashboard_after_load e u df Hload). split.
  - intros Hc. apply has_column_false_getitem in Hc.
    unfold render_dashboard, st_sidebar_header. simpl. rewrite Hc. reflexivity.
  - intros contract Hc Hi. apply has_column_false_getitem in Hi.
    unfold render_dashboard, st_sidebar_header, st_sidebar_multiselect. simpl.
    rewrite Hc. simpl. rewrite Hi. reflexivity.
Qed.

(** X3. A run that reaches the end renders, after the title, the sidebar,
    the three tiles, the two charts and the preview in that order, and the
    customer count, both charts and the preview are all taken from the one
    frame that filtered_df returns for the two selections. *)
Theorem complete_run_page (e : env) (u : user) :
  ending (dashboard e u) = Done tt ->
  exists df contract internet filtered overall segment,
    ending (load_data e) = Done (Some df) /\
    getitem df "Contract" = Ok contract /\
    getitem df "InternetService" = Ok internet /\
    filtered_df df (selection (chosen_contract u) (unique contract))
                   (selection (chosen_internet u) (unique internet)) = Ok filtered /\
    overall_churn_rate df = Ok overall /\
    segment_churn_rate filtered = Ok segment /\
    rendered (dashboard e u)
    = page_config :: page_title
        :: full_page contract internet u filtered overall segment.
Proof.
  intros Hend.
  destruct (proj1 (dashboard_ending_done e u) Hend)
    as [df [Hload [Hc [Hi [Ht [o Ho]]]]]].
  destruct (has_column_getitem _ _ Hc) as [c Hgc].
  destruct (has_column_getitem _ _ Hi) as [i Hgi].
  destruct (segment_after_overall df (filter_mask c i u) o Ho) as [s Hs].
  exists df, c, i, (loc_mask df (filter_mask c i u)), o, s.
  repeat split; try assumption.
  - apply filtered_df_unfold; assumption.
  - rewrite (dashboard_after_load e u df Hload).
    rewrite (render_dashboard_complete df u c i o s Hgc Hgi Ht Ho Hs). reflexivity.
Qed.

(** ** More on the filter *)

Lemma select_map {A B : Type} (g : A -> B) (m : list bool) (l : list A) :
  map g (select m l) = select m (map g l).
Proof.
  revert l. induction m as [|b m IH]; intros [|x l]; simpl; try reflexivity.
  destruct b; simpl; rewrite IH; reflexivity.
Qed.

Lemma series_and_nil_r (m : list bool) : series_and m [] = [].
Proof. destruct m; reflexivity. Qed.

Lemma series_and_select (m a b : list bool) :
  series_and (select m a) (select m b) = select m (series_and a b).
Proof.
  revert a b. induction m as [|x m IH]; intros [|a0 a] [|b0 b]; simpl; try reflexivity.
  - rewrite series_and_nil_r. reflexivity.
  - destruct x; simpl; rewrite IH; reflexivity.
Qed.

Lemma select_self_true (m : list bool) : Forall (fun b => b = true) (select m m).
Proof.
  induction m as [|[|] m IH]; simpl; [constructor|constructor; auto|exact IH].
Qed.

Lemma select_length_eq {A B : Type} (m : list bool) (l : list A) (l' : list B) :
  length l = length l' -> length (select m l) = length (select m l').
Proof.
  revert l l'. induction m as [|b m IH]; intros [|x l] [|y l'] H; simpl in *;
    try discriminate; try reflexivity.
  destruct b; simpl; rewrite (IH l l') by lia; reflexivity.
Qed.

Lemma wf_loc_mask_any df mask : wf_frame df -> wf_frame (loc_mask df mask).
Proof.
  unfold wf_frame, loc_mask. simpl. intros Hwf.
  rewrite Forall_map. revert Hwf. apply Forall_impl. intros [n s]. simpl.
  apply select_length_eq.
Qed.

Lemma filter_mask_length df contract internet contract_filter internet_filter :
  wf_frame df ->
  getitem df "Contract" = Ok contract ->
  getitem df "InternetService" = Ok internet ->
  length (series_and (isin contract contract_filter) (isin internet internet_filter))
  = len df.
Proof.
  intros Hwf Hc Hi.
  pose proof (getitem_length _ _ _ Hwf Hc). pose proof (getitem_length _ _ _ Hwf Hi).
  rewrite series_and_length; rewrite !isin_length; unfold len; lia.
Qed.

Lemma filtered_rows df contract internet contract_filter internet_filter :
  wf_frame df ->
  getitem df "Contract" = Ok contract ->
  getitem df "InternetService" = Ok internet ->
  rows (loc_mask df (series_and (isin contract contract_filter)
                                (isin internet internet_filter)))
  = filter (keeps contract_filter internet_filter) (rows df).
Proof.
  intros Hwf Hc Hi. rewrite rows_loc_mask. unfold rows.
  rewrite (isin_of_rows "Contract" contract_filter (index df) (columns df) contract
             (getitem_get_col _ _ _ Hc) (getitem_length _ _ _ Hwf Hc)).
  rewrite (isin_of_rows "InternetService" internet_filter (index df) (columns df) internet
             (getitem_get_col _ _ _ Hi) (getitem_length _ _ _ Hwf Hi)).
  rewrite series_and_map. apply select_map_filter.
Qed.

Lemma filter_length_mono {A : Type} (p q : A -> bool) (l : list A) :
  (forall x, p x = true -> q x = true) ->
  (length (filter p l) <= length (filter q l))%nat.
Proof.
  intros Hpq. induction l as [|x l IH]; simpl; [lia|].
  destruct (p x) eqn:Hp.
  - rewrite (Hpq x Hp). simpl. lia.
  - destruct (q x); simpl; lia.
Qed.

Lemma row_isin_incl name selected selected' r :
  (forall v, In v selected -> In v selected') ->
  row_isin name selected r = true -> row_isin name selected' r = true.
Proof.
  unfold row_isin. intros Hincl. destruct (cell (snd r) name); [|discriminate].
  apply isin1_incl. exact Hincl.
Qed.

Lemma keeps_incl cf cf' inf inf' r :
  (forall v, In v cf -> In v cf') -> (forall v, In v inf -> In v inf') ->
  keeps cf inf r = true -> keeps cf' inf' r = true.
Proof.
  unfold keeps. intros Hc Hi H. apply andb_true_iff in H. destruct H as [H1 H2].
  rewrite (row_isin_incl _ _ _ _ Hc H1), (row_isin_incl _ _ _ _ Hi H2). reflexivity.
Qed.

Lemma filtered_df_inv df contract_filter internet_filter filtered :
  filtered_df df contract_filter internet_filter = Ok filtered ->
  exists contract internet,
    getitem df "Contract" = Ok contract /\
    getitem df "InternetService" = Ok internet /\
    filtered = loc_mask df (series_and (isin contract contract_filter)
                                       (isin internet internet_filter)).
Proof.
  unfold filtered_df. simpl.
  destruct (getitem df "Contract") as [c|]; [|discriminate].
  destruct (getitem df "InternetService") as [i|]; [|discriminate].
  intros H. injection H as <-. exists c, i. auto.
Qed.

(** X4. The segment grows with the selection and never exceeds the table:
    when both selections are widened, every row of the old subset is a row of
    the new one, and the customer count of any subset is at most the number
    of rows of the table. *)
Theorem segment_grows_with_selection
    (df : DataFrame) (cf cf' inf inf' : list value) (f f' : DataFrame) :
  wf_frame df ->
  filtered_df df cf inf = Ok f ->
  filtered_df df cf' inf' = Ok f' ->
  (forall v, In v cf -> In v cf') ->
  (forall v, In v inf -> In v inf') ->
  (forall r, In r (rows f) -> In r (rows f')) /\
  (len f <= len f')%nat /\
  (len f' <= len df)%nat.
Proof.
  intros Hwf Hf Hf' Hc Hi.
  destruct (filtered_df_inv _ _ _ _ Hf) as [c [i [Hgc [Hgi ->]]]].
  destruct (filtered_df_inv _ _ _ _ Hf') as [c' [i' [Hgc' [Hgi' ->]]]].
  rewrite Hgc in Hgc'. injection Hgc' as <-.
  rewrite Hgi in Hgi'. injection Hgi' as <-.
  rewrite <- !rows_length.
  rewrite !(filtered_rows df c i) by assumption.
  split; [|split].
  - intros r Hr. apply filter_In in Hr. destruct Hr as [Hr Hk].
    apply filter_In. split; [exact Hr|exact (keeps_incl _ _ _ _ r Hc Hi Hk)].
  - apply filter_length_mono. intros r. apply keeps_incl; assumption.
  - apply filter_length_le.
Qed.

(** X5. Filtering is idempotent: applying the same two selections to the
    filtered subset returns the subset itself. *)
Theorem filtered_df_idempotent (df : DataFrame) (cf inf : list value) (f : DataFrame) :
  wf_frame df ->
  filtered_df df cf inf = Ok f ->
  filtered_df f cf inf = Ok f.
Proof.
  intros Hwf Hf.
  destruct (filtered_df_inv _ _ _ _ Hf) as [c [i [Hgc [Hgi ->]]]].
  set (m := series_and (isin c cf) (isin i inf)).
  rewrite (filtered_df_unfold _ _ _ cf inf
             (getitem_loc_mask df m _ _ Hgc) (getitem_loc_mask df m _ _ Hgi)).
  f_equal. unfold isin. rewrite !select_map, series_and_select.
  change (series_and (map (fun v => isin1 v cf) c) (map (fun v => isin1 v inf) i)) with m.
  apply loc_mask_all_true.
  - apply wf_loc_mask_any. exact Hwf.
  - apply select_self_true.
  - unfold len, loc_mask. simpl. apply select_length_eq.
    exact (filter_mask_length df c i cf inf Hwf Hgc Hgi).
Qed.

Lemma default_mask_all_true (contract internet : Series) :
  Forall (fun b => b = true)
         (series_and (isin contract (unique contract)) (isin internet (unique internet))).
Proof.
  apply series_and_true; apply isin_all_true; intros v Hv; apply unique_covers; exact Hv.
Qed.

(** X6. While the user has touched neither multiselect, nothing is filtered
    out: the customer count is the number of rows of the table, the charts
    and the preview are drawn from the whole table, and the segment churn
    rate is the overall one (0.0 on a table without rows). *)
Theorem untouched_filters_keep_every_customer
    (e : env) (u : user) (df : DataFrame) (contract internet : Series) (overall : pyfloat) :
  ending (load_data e) = Done (Some df) ->
  wf_frame df ->
  getitem df "Contract" = Ok contract ->
  getitem df "InternetService" = Ok internet ->
  has_column "tenure_bucket" df = true ->
  overall_churn_rate df = Ok overall ->
  chosen_contract u = None ->
  chosen_internet u = None ->
  dashboard e u
  = (page_config :: page_title
       :: full_page contract internet u df overall
            (if empty df then FVal 0 else overall),
     Done tt).
Proof.
  intros Hload Hwf Hc Hi Ht Ho Hu1 Hu2.
  assert (Hmask : loc_mask df (filter_mask contract internet u) = df).
  { unfold filter_mask. rewrite Hu1, Hu2. simpl selection.
    apply loc_mask_all_true; [exact Hwf|apply default_mask_all_true|].
    exact (filter_mask_length df contract internet _ _ Hwf Hc Hi). }
  assert (Hs : segment_churn_rate df = Ok (if empty df then FVal 0 else overall)).
  { unfold segment_churn_rate. destruct (empty df); [reflexivity|exact Ho]. }
  rewrite (dashboard_after_load e u df Hload).
  rewrite <- Hmask in Hs.
  rewrite (render_dashboard_complete df u contract internet overall _ Hc Hi Ht Ho Hs).
  rewrite Hmask. reflexivity.
Qed.

Lemma binary_select (m : list bool) (labels : Series) :
  binary labels -> binary (select m labels).
Proof.
  unfold binary. rewrite !Forall_forall. intros H x Hx.
  apply H. exact (select_In m labels x Hx).
Qed.

(** X7. Whatever is selected, the segment churn rate of a table with a 0/1
    indicator is a number between 0.0 and 1.0; it is never nan, the empty
    subset included. *)
Theorem segment_churn_rate_in_unit_interval
    (df : DataFrame) (labels : Series) (cf inf : list value) (f : DataFrame) :
  wf_frame df ->
  getitem df "churn_label" = Ok labels ->
  binary labels ->
  filtered_df df cf inf = Ok f ->
  exists q, segment_churn_rate f = Ok (FVal q) /\ in_unit_interval (FVal q).
Proof.
  intros Hwf Hl Hbin Hf.
  destruct (filtered_df_inv _ _ _ _ Hf) as [c [i [_ [_ ->]]]].
  set (m := series_and (isin c cf) (isin i inf)).
  unfold segment_churn_rate.
  destruct (empty (loc_mask df m)) eqn:Hempty; simpl.
  - exists 0. split; [reflexivity|]. split; [apply Qle_refl|discriminate].
  - rewrite (getitem_loc_mask df m _ _ Hl).
    apply binary_mean_in_unit_interval; [apply binary_select; exact Hbin|].
    intros Hnil.
    pose proof (select_length_eq m labels (index df) (getitem_length _ _ _ Hwf Hl)) as Hlen.
    rewrite Hnil in Hlen. simpl in Hlen.
    unfold empty, loc_mask in Hempty. simpl in Hempty.
    destruct (select m (index df)); [discriminate|discriminate].
Qed.

Lemma getitem_without_rows df name :
  wf_frame df -> index df = [] -> has_column name df = true -> getitem df name = Ok [].
Proof.
  intros Hwf Hidx Hcol. destruct (has_column_getitem _ _ Hcol) as [col Hget].
  pose proof (getitem_length _ _ _ Hwf Hget) as Hlen. rewrite Hidx in Hlen.
  destruct col; [exact Hget|discriminate].
Qed.

Lemma loc_mask_without_rows df mask :
  wf_frame df -> index df = [] -> loc_mask df mask = df.
Proof.
  destruct df as [idx cols]. unfold wf_frame, loc_mask. simpl. intros Hwf ->.
  rewrite select_nil. f_equal.
  induction Hwf as [|[n s] cols Hs _ IH]; simpl; [reflexivity|].
  rewrite IH. destruct s; [|discriminate]. rewrite select_nil. reflexivity.
Qed.

Lemma load_data_has_churn_label e df :
  ending (load_data e) = Done (Some df) -> has_column "churn_label" df = true.
Proof.
  intros Hsome. load_cases e; rewrite Hload in Hsome; simpl in Hsome; try discriminate;
    injection Hsome as <-.
  - assumption.
  - apply (getitem_has_column _ _ (apply churn_to_label churn)).
    apply getitem_setitem_same.
Qed.

(** X8. On a loaded table that has the columns and no row, the script runs
    to the end for every widget state and shows 0 customers, an overall churn
    rate of nan, a segment churn rate of 0.0 and a delta of nan. *)
Theorem table_without_rows_shows_nan (e : env) (u : user) (df : DataFrame) :
  ending (load_data e) = Done (Some df) ->
  wf_frame df ->
  index df = [] ->
  has_column "Contract" df = true ->
  has_column "InternetService" df = true ->
  has_column "tenure_bucket" df = true ->
  ending (dashboard e u) = Done tt /\
  In (Metric "Total Customers in Segment" (Count 0) None) (rendered (dashboard e u)) /\
  In (Metric "Overall Churn Rate" (Percent FNaN) None) (rendered (dashboard e u)) /\
  In (Metric "Segment Churn Rate" (Percent (FVal 0)) (Some FNaN))
     (rendered (dashboard e u)).
Proof.
  intros Hload Hwf Hidx Hc Hi Ht.
  pose proof (getitem_without_rows df _ Hwf Hidx Hc) as Hgc.
  pose proof (getitem_without_rows df _ Hwf Hidx Hi) as Hgi.
  pose proof (getitem_without_rows df _ Hwf Hidx (load_data_has_churn_label e df Hload))
    as Hgl.
  assert (Ho : overall_churn_rate df = Ok FNaN).
  { unfold overall_churn_rate. simpl. rewrite Hgl. reflexivity. }
  assert (Hs : segment_churn_rate (loc_mask df (filter_mask [] [] u)) = Ok (FVal 0)).
  { rewrite (loc_mask_without_rows df _ Hwf Hidx).
    unfold segment_churn_rate, empty. rewrite Hidx. reflexivity. }
  rewrite (dashboard_after_load e u df Hload).
  rewrite (render_dashboard_complete df u [] [] FNaN (FVal 0) Hgc Hgi Ht Ho Hs).
  split; [reflexivity|].
  unfold full_page, len, loc_mask, filter_mask, rendered. simpl. auto 12.
Qed.

(** ** The preview *)

Lemma heads_firstn n cols :
  heads (map (fun c => (fst c, firstn (S n) (snd c))) cols) = heads cols.
Proof.
  unfold heads. rewrite map_map. apply map_ext. intros [name [|x t]]; reflexivity.
Qed.

Lemma tails_firstn n cols :
  tails (map (fun c => (fst c, firstn (S n) (snd c))) cols)
  = map (fun c => (fst c, firstn n (snd c))) (tails cols).
Proof.
  unfold tails. rewrite !map_map. apply map_ext.
  intros [name [|x t]]; simpl; [rewrite firstn_nil|]; reflexivity.
Qed.

Lemma rows_of_firstn : forall n idx cols,
  rows_of (firstn n idx) (map (fun c => (fst c, firstn n (snd c))) cols)
  = firstn n (rows_of idx cols).
Proof.
  induction n as [|n IH]; intros [|i idx] cols; try reflexivity.
  change (rows_of (firstn (S n) (i :: idx))
            (map (fun c => (fst c, firstn (S n) (snd c))) cols))
    with ((i, heads (map (fun c => (fst c, firstn (S n) (snd c))) cols))
          :: rows_of (firstn n idx)
               (tails (map (fun c => (fst c, firstn (S n) (snd c))) cols))).
  rewrite heads_firstn, tails_firstn, IH. reflexivity.
Qed.

Lemma rows_head n df : rows (head n df) = firstn n (rows df).
Proof. apply rows_of_firstn. Qed.

Lemma head_all n df : wf_frame df -> (len df <= n)%nat -> head n df = df.
Proof.
  destruct df as [idx cols]. unfold wf_frame, head, len. simpl. intros Hwf Hlen.
  f_equal; [apply firstn_all2; exact Hlen|].
  induction Hwf as [|[name s] cols Hs _ IH]; simpl; [reflexivity|].
  rewrite IH. simpl in Hs. rewrite firstn_all2 by lia. reflexivity.
Qed.

Lemma px_histogram_inv data x color title order fig :
  px_histogram data x color title order = Ok fig ->
  has_column x data = true /\ has_column color data = true.
Proof.
  unfold px_histogram.
  destruct (has_column x data); destruct (has_column color data); simpl;
    try discriminate; auto.
Qed.

Lemma dataframe_in_dashboard e u d :
  In (DataframeView d) (rendered (dashboard e u)) -> ending (dashboard e u) = Done tt.
Proof.
  intros H. apply dashboard_ending_done.
  rewrite dashboard_unfold in H.
  pose proof (load_data_renders_error_boxes e) as Herr.
  rewrite forallb_forall in Herr.
  assert (Hpage : ~ In (DataframeView d) (rendered (load_data e))).
  { intros Hin. apply Herr in Hin. discriminate. }
  destruct (load_data e) as [page [[df|]| |exc]]; simpl in *; destruct H as [H|H];
    try discriminate; try contradiction.
  - apply in_app_iff in H. destruct H as [H|[H|H]]; [contradiction|discriminate|].
    exists df. split; [reflexivity|].
    unfold render_dashboard, st_sidebar_multiselect, st_sidebar_header, st_header, st_metric,
      st_markdown, st_plotly_chart, st_dataframe in H.
    repeat (page_step H; try discriminate).
    repeat match goal with
    | Hl : ending (lift _) = Done _ |- _ => apply ending_lift in Hl
    end.
    destruct (getitem df "Contract") as [c|] eqn:Hc; [|discriminate].
    destruct (getitem df "InternetService") as [i|] eqn:Hi; [|discriminate].
    match goal with
    | Hf : filtered_df _ _ _ = Ok _ |- _ =>
        apply filtered_df_inv in Hf; destruct Hf as [? [? [_ [_ ->]]]]
    end.
    match goal with
    | Hh : px_histogram _ "tenure_bucket" _ _ _ = Ok _ |- _ =>
        apply px_histogram_inv in Hh; destruct Hh as [Ht _];
        rewrite has_column_loc_mask in Ht
    end.
    match goal with
    | Ho : overall_churn_rate df = Ok ?o |- _ =>
        split; [exact (getitem_has_column _ _ _ Hc)|];
        split; [exact (getitem_has_column _ _ _ Hi)|];
        split; [exact Ht|];
        exists o; exact Ho
    end.
  - apply in_app_iff in H. destruct H as [H|[H|[]]]; [contradiction|discriminate].
Qed.

(** X9. The preview shows the first rows of the filtered subset, in order
    and never more than 10 of them; a subset of at most 10 rows is shown
    whole. *)
Theorem preview_is_first_ten_rows (e : env) (u : user) (d : DataFrame) :
  In (DataframeView d) (rendered (dashboard e u)) ->
  exists df contract internet filtered,
    ending (load_data e) = Done (Some df) /\
    getitem df "Contract" = Ok contract /\
    getitem df "InternetService" = Ok internet /\
    filtered_df df (selection (chosen_contract u) (unique contract))
                   (selection (chosen_internet u) (unique internet)) = Ok filtered /\
    d = head 10 filtered /\
    rows d = firstn 10 (rows filtered) /\
    (len d <= 10)%nat /\
    (wf_frame df -> (len filtered <= 10)%nat -> d = filtered).
Proof.
  intros H. pose proof (dataframe_in_dashboard e u d H) as Hend.
  destruct (proj1 (dashboard_ending_done e u) Hend)
    as [df [Hload [Hc [Hi [Ht [o Ho]]]]]].
  destruct (has_column_getitem _ _ Hc) as [c Hgc].
  destruct (has_column_getitem _ _ Hi) as [i Hgi].
  destruct (segment_after_overall df (filter_mask c i u) o Ho) as [s Hs].
  rewrite (dashboard_after_load e u df Hload) in H.
  rewrite (render_dashboard_complete df u c i o s Hgc Hgi Ht Ho Hs) in H.
  assert (Hd : d = head 10 (loc_mask df (filter_mask c i u))).
  { unfold rendered, full_page in H. simpl in H.
    repeat (destruct H as [H|H]; try discriminate); [|contradiction].
    injection H as <-. reflexivity. }
  exists df, c, i, (loc_mask df (filter_mask c i u)).
  split; [exact Hload|]. split; [exact Hgc|]. split; [exact Hgi|].
  split; [apply filtered_df_unfold; assumption|].
  split; [exact Hd|]. subst d.
  split; [apply rows_head|].
  split; [exact (firstn_le_length 10 (index (loc_mask df (filter_mask c i u))))|].
  intros Hwf Hlen. apply head_all; [apply wf_loc_mask_any; exact Hwf|exact Hlen].
Qed.

(** ** The churn rate as a share of customers *)

Lemma binary_total_count (s : Series) :
  binary s -> total s == inject_Z (Z.of_nat (count_ones s)).
Proof.
  induction 1 as [|v s Hv _ IH].
  - reflexivity.
  - change (total (v :: s)) with (num_or_zero v + total s).
    destruct Hv as [-> | ->].
    + change (count_ones (VInt 0 :: s)) with (count_ones s).
      change (num_or_zero (VInt 0)) with 0. rewrite IH. ring.
    + change (count_ones (VInt 1 :: s)) with (S (count_ones s)).
      change (num_or_zero (VInt 1)) with 1.
      rewrite Nat2Z.inj_succ. unfold Z.succ. rewrite inject_Z_plus, IH.
      change (inject_Z 1) with 1. ring.
Qed.

Lemma binary_mean_share (labels : Series) :
  binary labels -> labels <> [] ->
  exists q,
    mean labels = Ok (FVal q) /\
    q = round64 (inject_Z (Z.of_nat (count_ones labels))
                 / inject_Z (Z.of_nat (length labels))) /\
    in_unit_interval (FVal q).
Proof.
  intros Hbin Hne.
  destruct (binary_mean_in_unit_interval labels Hbin Hne) as [q [Hq Hin]].
  exists q. split; [exact Hq|]. split; [|exact Hin].
  destruct (binary_clean labels Hbin) as [Hf Hs].
  unfold mean in Hq. rewrite Hf, Hs in Hq.
  destruct labels as [|v rest]; [contradiction|].
  injection Hq as <-. apply round64_eq.
  rewrite (binary_total_count _ Hbin). reflexivity.
Qed.

Lemma count_ones_derived (churn : Series) :
  count_ones (apply churn_to_label churn) = count_yes churn.
Proof.
  unfold count_yes, apply. induction churn as [|x churn IH]; [reflexivity|].
  simpl map. simpl filter. unfold churn_to_label at 1.
  destruct (py_eq_str x "Yes"); simpl; rewrite IH; reflexivity.
Qed.

(** X10. For a table with at least one row and a 0/1 indicator, the overall
    churn rate is the number of rows whose 'churn_label' is 1 divided by the
    number of rows, as a float64 quotient. *)
Theorem overall_churn_rate_is_share_of_churned (df : DataFrame) (labels : Series) :
  getitem df "churn_label" = Ok labels ->
  binary labels ->
  labels <> [] ->
  exists q,
    overall_churn_rate df = Ok (FVal q) /\
    q = round64 (inject_Z (Z.of_nat (count_ones labels))
                 / inject_Z (Z.of_nat (length labels))).
Proof.
  intros Hget Hbin Hne.
  destruct (binary_mean_share labels Hbin Hne) as [q [Hq [Hshare _]]].
  exists q. split; [|exact Hshare].
  unfold overall_churn_rate. simpl. rewrite Hget. exact Hq.
Qed.

(** X11. For a data file with at least one row, a 'Churn' column and no
    'churn_label' column, the overall churn rate of the loaded table is the
    number of rows whose 'Churn' is the string "Yes" divided by the number of
    rows, as a float64 quotient, a number between 0.0 and 1.0. *)
Theorem derived_churn_rate_is_share_of_yes (e : env) (df : DataFrame) (churn : Series) :
  disk e = Csv df ->
  has_column "churn_label" df = false ->
  getitem df "Churn" = Ok churn ->
  churn <> [] ->
  exists loaded q,
    load_data e = ([], Done (Some loaded)) /\
    overall_churn_rate loaded = Ok (FVal q) /\
    q = round64 (inject_Z (Z.of_nat (count_yes churn))
                 / inject_Z (Z.of_nat (length churn))) /\
    in_unit_interval (FVal q).
Proof.
  intros Hdisk Hlabel Hchurn Hne.
  assert (Hne' : apply churn_to_label churn <> []).
  { destruct churn; [contradiction|discriminate]. }
  destruct (binary_mean_share _ (derived_labels_binary churn) Hne')
    as [q [Hq [Hshare Hin]]].
  exists (setitem df "churn_label" (apply churn_to_label churn)), q.
  split.
  { rewrite (load_data_on_table e df Hdisk), Hlabel.
    rewrite (getitem_has_column _ _ _ Hchurn), Hchurn. reflexivity. }
  split.
  { unfold overall_churn_rate. simpl. rewrite getitem_setitem_same. exact Hq. }
  split; [|exact Hin].
  rewrite Hshare, count_ones_derived. unfold apply. rewrite length_map. reflexivity.
Qed.

(** ** What load_data hands over *)

(** X12. Every table load_data returns has a 'churn_label' column, the row
    labels and every column of the parsed table, and one cell per row in each
    column; a data file holding the returned table loads back unchanged. *)
Theorem load_data_postcondition (e : env) (df loaded : DataFrame) :
  disk e = Csv df ->
  wf_frame df ->
  ending (load_data e) = Done (Some loaded) ->
  has_column "churn_label" loaded = true /\
  wf_frame loaded /\
  index loaded = index df /\
  (forall name col, getitem df name = Ok col -> getitem loaded name = Ok col) /\
  load_data (mkEnv (DATA_FILE e) (Csv loaded)) = ([], Done (Some loaded)).
Proof.
  intros Hd Hwf Hsome.
  pose proof (load_data_has_churn_label e loaded Hsome) as Hhas.
  split; [exact Hhas|].
  split; [exact (load_data_wf e df loaded Hd Hwf Hsome)|].
  split; [|split].
  - load_cases e; rewrite Hload in Hsome; simpl in Hsome; try discriminate;
      rewrite Hd in Hdisk; injection Hdisk as <-; injection Hsome as <-; reflexivity.
  - intros name col Hget.
    load_cases e; rewrite Hload in Hsome; simpl in Hsome; try discriminate;
      rewrite Hd in Hdisk; injection Hdisk as <-; injection Hsome as <-; [exact Hget|].
    rewrite getitem_setitem_other; [exact Hget|].
    intros ->. rewrite (getitem_has_column _ _ _ Hget) in Hlabel. discriminate.
  - rewrite (load_data_on_table (mkEnv (DATA_FILE e) (Csv loaded)) loaded eq_refl), Hhas.
    reflexivity.
Qed.

(** ** The options of the filters *)

Lemma unique_from_fresh (s : Series) :
  forall seen v, In v (unique_from seen s) -> isin1 v seen = false /\ In v s.
Proof.
  induction s as [|a s IH]; intros seen v Hin; [contradiction|].
  simpl in Hin. destruct (isin1 a seen) eqn:Ha.
  - destruct (IH seen v Hin) as [Hf Hs]. split; [exact Hf|right; exact Hs].
  - destruct Hin as [<-|Hin]; [split; [exact Ha|left; reflexivity]|].
    destruct (IH (a :: seen) v Hin) as [Hf Hs].
    simpl in Hf. apply orb_false_iff in Hf. destruct Hf as [_ Hf].
    split; [exact Hf|right; exact Hs].
Qed.

Lemma unique_from_NoDup (s : Series) : forall seen, NoDup (unique_from seen s).
Proof.
  induction s as [|a s IH]; intros seen; simpl; [constructor|].
  destruct (isin1 a seen); [apply IH|].
  constructor; [|apply IH].
  intros Hin. destruct (unique_from_fresh s (a :: seen) a Hin) as [Hf _].
  simpl in Hf. rewrite value_eqb_refl in Hf. discriminate.
Qed.

Lemma multiselect_in_render df u label options chosen :
  In (SidebarMultiselect label options chosen) (rendered (render_dashboard df u)) ->
  (label = "Select Contract Type" /\
   exists col, getitem df "Contract" = Ok col /\ options = unique col /\
               chosen = selection (chosen_contract u) options) \/
  (label = "Select Internet Service" /\
   exists col, getitem df "InternetService" = Ok col /\ options = unique col /\
               chosen = selection (chosen_internet u) options).
Proof.
  unfold render_dashboard, st_sidebar_multiselect, st_sidebar_header, st_header, st_metric,
    st_markdown, st_plotly_chart, st_dataframe.
  intros H.
  repeat (page_step H; try discriminate);
    injection H as <- <- <-;
    repeat match goal with
    | Hl : ending (lift _) = Done _ |- _ => apply ending_lift in Hl
    end.
  - left. split; [reflexivity|].
    destruct (getitem df "Contract") as [c|]; [|discriminate].
    match goal with Hu : _ = Ok ?a |- _ => simpl in Hu; injection Hu as <- end.
    exists c. auto.
  - right. split; [reflexivity|].
    destruct (getitem df "InternetService") as [c|]; [|discriminate].
    match goal with
    | Hu : (_ <- Ok c ;; _) = Ok ?a |- _ => simpl in Hu; injection Hu as <-
    end.
    exists c. auto.
Qed.

(** X13. Each filter widget offers the distinct values of its column of the
    loaded table: every option occurs in the column, no option is offered
    twice, every cell of the column matches an option, and the widget returns
    the user's choice or, untouched, all the options. *)
Theorem filter_options_are_the_distinct_values
    (e : env) (u : user) (label : string) (options chosen : list value) :
  In (SidebarMultiselect label options chosen) (rendered (dashboard e u)) ->
  exists df col,
    ending (load_data e) = Done (Some df) /\
    (label = "Select Contract Type" /\ getitem df "Contract" = Ok col /\
     chosen = selection (chosen_contract u) options
     \/
     label = "Select Internet Service" /\ getitem df "InternetService" = Ok col /\
     chosen = selection (chosen_internet u) options) /\
    options = unique col /\
    NoDup options /\
    (forall v, In v options -> In v col) /\
    (forall v, In v col -> isin1 v options = true).
Proof.
  intros H. rewrite dashboard_unfold in H.
  pose proof (load_data_renders_error_boxes e) as Herr.
  rewrite forallb_forall in Herr.
  assert (Hpage : ~ In (SidebarMultiselect label options chosen) (rendered (load_data e))).
  { intros Hin. apply Herr in Hin. discriminate. }
  destruct (load_data e) as [page [[df|]| |exc]]; simpl in *; destruct H as [H|H];
    try discriminate; try contradiction.
  - apply in_app_iff in H. destruct H as [H|[H|H]]; [contradiction|discriminate|].
    assert (Hfacts : forall col, options = unique col ->
              NoDup options /\ (forall v, In v options -> In v col) /\
              (forall v, In v col -> isin1 v options = true)).
    { intros col ->. split; [apply unique_from_NoDup|]. split.
      - intros v Hv. exact (proj2 (unique_from_fresh col [] v Hv)).
      - intros v Hv. apply unique_covers. exact Hv. }
    destruct (multiselect_in_render df u label options chosen H)
      as [[Hl [col [Hg [Ho Hc]]]]|[Hl [col [Hg [Ho Hc]]]]];
      exists df, col; (split; [reflexivity|]); (split; [auto|]);
      (split; [exact Ho|]); apply Hfacts; exact Ho.
  - apply in_app_iff in H. destruct H as [H|[H|[]]]; [contradiction|discriminate].
Qed.

(** ** How a run can end *)

Lemma render_dashboard_never_stops df u : ending (render_dashboard df u) <> Stopped.
Proof.
  unfold render_dashboard. intros H.
  repeat (rewrite ending_bind in H; simpl ending in H).
  destruct (getitem df "Contract") as [c|] eqn:Hc; simpl in H; [|discriminate].
  repeat (rewrite ending_bind in H; simpl ending in H).
  destruct (getitem df "InternetService") as [i|] eqn:Hi; simpl in H; [|discriminate].
  repeat (rewrite ending_bind in H; simpl ending in H).
  rewrite (filtered_df_unfold _ _ _ _ _ Hc Hi) in H. simpl in H.
  repeat (rewrite ending_bind in H; simpl ending in H).
  destruct (overall_churn_rate df) as [o|] eqn:Ho; simpl in H; [|discriminate].
  repeat (rewrite ending_bind in H; simpl ending in H).
  match type of H with
  | context [segment_churn_rate ?f] => destruct (segment_churn_rate f); simpl in H
  end; [|discriminate].
  repeat (rewrite ending_bind in H; simpl ending in H).
  match type of H with
  | context [px_histogram ?f "Contract" ?c ?t ?o] =>
      destruct (px_histogram f "Contract" c t o); simpl in H
  end; [|discriminate].
  repeat (rewrite ending_bind in H; simpl ending in H).
  match type of H with
  | context [px_histogram ?f "tenure_bucket" ?c ?t ?o] =>
      destruct (px_histogram f "tenure_bucket" c t o); simpl in H
  end; discriminate.
Qed.

(** X14. The script ends in st.stop() exactly when load_data returned no
    table; once a table is loaded, a run either reaches the last statement or
    is ended by an exception. *)
Theorem dashboard_stops_iff_load_fails (e : env) (u : user) :
  ending (dashboard e u) = Stopped <-> ending (load_data e) = Done None.
Proof.
  rewrite dashboard_unfold.
  destruct (load_data e) as [page [[df|]| |x]] eqn:Hload; simpl.
  - split; [|discriminate].
    intros H. destruct (render_dashboard_never_stops df u H).
  - split; reflexivity.
  - exfalso.
    assert (H : ending (load_data e) = Stopped) by (rewrite Hload; reflexivity).
    load_cases e; rewrite Hload0 in H; discriminate.
  - split; discriminate.
Qed.

(** ** The further properties at sample inputs *)

Lemma wf_three_binary : wf_frame three_binary.
Proof. repeat constructor. Qed.

Lemma dashboard_raises_without_contract_column :
  ending (load_data (mkEnv telco_file (Csv no_contract))) = Done (Some no_contract) /\
  has_column "Contract" no_contract = false /\
  dashboard (mkEnv telco_file (Csv no_contract)) untouched
  = ([page_config; page_title; SidebarHeader "Customer Filters"],
     Crashed (KeyError "Contract")).
Proof.
  split; [reflexivity|]. split; [reflexivity|].
  exact (proj1 (dashboard_raises_without_filter_column
                  (mkEnv telco_file (Csv no_contract)) untouched no_contract eq_refl)
               eq_refl).
Defined.

Lemma complete_run_page_at_three_binary :
  ending (dashboard (mkEnv telco_file (Csv three_binary)) monthly_only) = Done tt /\
  exists df contract internet filtered overall segment,
    ending (load_data (mkEnv telco_file (Csv three_binary))) = Done (Some df) /\
    getitem df "Contract" = Ok contract /\
    getitem df "InternetService" = Ok internet /\
    filtered_df df (selection (chosen_contract monthly_only) (unique contract))
                   (selection (chosen_internet monthly_only) (unique internet))
    = Ok filtered /\
    overall_churn_rate df = Ok overall /\
    segment_churn_rate filtered = Ok segment /\
    rendered (dashboard (mkEnv telco_file (Csv three_binary)) monthly_only)
    = page_config :: page_title
        :: full_page contract internet monthly_only filtered overall segment.
Proof.
  split; [reflexivity|].
  apply (complete_run_page (mkEnv telco_file (Csv three_binary)) monthly_only).
  reflexivity.
Defined.

Lemma segment_grows_at_three_binary :
  wf_frame three_binary /\
  filtered_df three_binary [monthly] [VStr "DSL"]
  = Ok (loc_mask three_binary [true; false; false]) /\
  filtered_df three_binary [monthly; two_year] [VStr "DSL"; VStr "No"]
  = Ok (loc_mask three_binary [true; false; true]) /\
  (len (loc_mask three_binary [true; false; false])
   <= len (loc_mask three_binary [true; false; true]))%nat /\
  (len (loc_mask three_binary [true; false; true]) <= len three_binary)%nat.
Proof.
  split; [exact wf_three_binary|]. split; [reflexivity|]. split; [reflexivity|].
  apply (segment_grows_with_selection three_binary
           [monthly] [monthly; two_year] [VStr "DSL"] [VStr "DSL"; VStr "No"]
           (loc_mask three_binary [true; false; false])
           (loc_mask three_binary [true; false; true])
           wf_three_binary eq_refl eq_refl).
  - intros v. simpl. tauto.
  - intros v. simpl. tauto.
Defined.

Lemma filtered_df_idempotent_at_three_binary :
  wf_frame three_binary /\
  filtered_df three_binary [monthly] [VStr "DSL"; VStr "Fiber optic"]
  = Ok (loc_mask three_binary [true; true; false]) /\
  filtered_df (loc_mask three_binary [true; true; false])
              [monthly] [VStr "DSL"; VStr "Fiber optic"]
  = Ok (loc_mask three_binary [true; true; false]).
Proof.
  split; [exact wf_three_binary|]. split; [reflexivity|].
  exact (filtered_df_idempotent three_binary [monthly] [VStr "DSL"; VStr "Fiber optic"]
           (loc_mask three_binary [true; true; false]) wf_three_binary eq_refl).
Defined.

Lemma untouched_filters_at_three_binary :
  wf_frame three_binary /\
  dashboard (mkEnv telco_file (Csv three_binary)) untouched
  = (page_config :: page_title
       :: full_page [monthly; monthly; two_year]
            [VStr "DSL"; VStr "Fiber optic"; VStr "No"]
            untouched three_binary (FVal (round64 (1 # 3)))
            (if empty three_binary then FVal 0 else FVal (round64 (1 # 3))),
     Done tt).
Proof.
  split; [exact wf_three_binary|].
  apply (untouched_filters_keep_every_customer
           (mkEnv telco_file (Csv three_binary)) untouched three_binary);
    try reflexivity.
  exact wf_three_binary.
Defined.

Lemma segment_churn_rate_bounded_at_three_binary :
  wf_frame three_binary /\
  binary [VInt 1; VInt 0; VInt 0] /\
  exists q,
    segment_churn_rate (loc_mask three_binary [true; true; false]) = Ok (FVal q) /\
    in_unit_interval (FVal q).
Proof.
  split; [exact wf_three_binary|].
  assert (Hbin : binary [VInt 1; VInt 0; VInt 0]) by (repeat constructor; auto).
  split; [exact Hbin|].
  exact (segment_churn_rate_in_unit_interval three_binary [VInt 1; VInt 0; VInt 0]
           [monthly] [VStr "DSL"; VStr "Fiber optic"]
           (loc_mask three_binary [true; true; false])
           wf_three_binary eq_refl Hbin eq_refl).
Defined.

Lemma header_only_file_shows_nan :
  wf_frame header_only /\
  index header_only = [] /\
  ending (dashboard (mkEnv telco_file (Csv header_only)) monthly_only) = Done tt /\
  In (Metric "Total Customers in Segment" (Count 0) None)
     (rendered (dashboard (mkEnv telco_file (Csv header_only)) monthly_only)) /\
  In (Metric "Overall Churn Rate" (Percent FNaN) None)
     (rendered (dashboard (mkEnv telco_file (Csv header_only)) monthly_only)) /\
  In (Metric "Segment Churn Rate" (Percent (FVal 0)) (Some FNaN))
     (rendered (dashboard (mkEnv telco_file (Csv header_only)) monthly_only)).
Proof.
  assert (Hwf : wf_frame header_only) by (repeat constructor).
  split; [exact Hwf|]. split; [reflexivity|].
  apply (table_without_rows_shows_nan (mkEnv telco_file (Csv header_only)) monthly_only
           header_only); try reflexivity.
  exact Hwf.
Defined.

Lemma preview_at_three_binary :
  In (DataframeView (head 10 (loc_mask three_binary [true; true; false])))
     (rendered (dashboard (mkEnv telco_file (Csv three_binary)) monthly_only)) /\
  exists df contract internet filtered,
    ending (load_data (mkEnv telco_file (Csv three_binary))) = Done (Some df) /\
    getitem df "Contract" = Ok contract /\
    getitem df "InternetService" = Ok internet /\
    filtered_df df (selection (chosen_contract monthly_only) (unique contract))
                   (selection (chosen_internet monthly_only) (unique internet))
    = Ok filtered /\
    head 10 (loc_mask three_binary [true; true; false]) = head 10 filtered /\
    rows (head 10 (loc_mask three_binary [true; true; false]))
    = firstn 10 (rows filtered) /\
    (len (head 10 (loc_mask three_binary [true; true; false])) <= 10)%nat /\
    (wf_frame df -> (len filtered <= 10)%nat ->
     head 10 (loc_mask three_binary [true; true; false]) = filtered).
Proof.
  assert (H : In (DataframeView (head 10 (loc_mask three_binary [true; true; false])))
                 (rendered (dashboard (mkEnv telco_file (Csv three_binary)) monthly_only))).
  { vm_compute. tauto. }
  split; [exact H|].
  exact (preview_is_first_ten_rows (mkEnv telco_file (Csv three_binary)) monthly_only
           (head 10 (loc_mask three_binary [true; true; false])) H).
Defined.

Lemma overall_churn_rate_share_at_three_binary :
  binary [VInt 1; VInt 0; VInt 0] /\
  exists q,
    overall_churn_rate three_binary = Ok (FVal q) /\
    q = round64 (inject_Z (Z.of_nat (count_ones [VInt 1; VInt 0; VInt 0]))
                 / inject_Z (Z.of_nat (length [VInt 1; VInt 0; VInt 0]))).
Proof.
  assert (Hbin : binary [VInt 1; VInt 0; VInt 0]) by (repeat constructor; auto).
  split; [exact Hbin|].
  apply (overall_churn_rate_is_share_of_churned three_binary [VInt 1; VInt 0; VInt 0]);
    [reflexivity|exact Hbin|discriminate].
Defined.

Lemma derived_churn_rate_share_at_three_customers :
  has_column "churn_label" three_customers = false /\
  exists loaded q,
    load_data (mkEnv telco_file (Csv three_customers)) = ([], Done (Some loaded)) /\
    overall_churn_rate loaded = Ok (FVal q) /\
    q = round64 (inject_Z (Z.of_nat (count_yes [VStr "Yes"; VStr "No"; VStr "No"]))
                 / inject_Z (Z.of_nat (length [VStr "Yes"; VStr "No"; VStr "No"]))) /\
    in_unit_interval (FVal q).
Proof.
  split; [reflexivity|].
  apply (derived_churn_rate_is_share_of_yes (mkEnv telco_file (Csv three_customers))
           three_customers [VStr "Yes"; VStr "No"; VStr "No"]);
    [reflexivity|reflexivity|reflexivity|discriminate].
Defined.

Lemma load_data_postcondition_at_three_customers :
  wf_frame three_customers /\
  ending (load_data (mkEnv telco_file (Csv three_customers)))
  = Done (Some (setitem three_customers "churn_label" [VInt 1; VInt 0; VInt 0])) /\
  has_column "churn_label"
    (setitem three_customers "churn_label" [VInt 1; VInt 0; VInt 0]) = true /\
  load_data (mkEnv telco_file
               (Csv (setitem three_customers "churn_label" [VInt 1; VInt 0; VInt 0])))
  = ([], Done (Some (setitem three_customers "churn_label" [VInt 1; VInt 0; VInt 0]))).
Proof.
  split; [exact wf_three_customers|]. split; [reflexivity|].
  destruct (load_data_postcondition (mkEnv telco_file (Csv three_customers))
              three_customers
              (setitem three_customers "churn_label" [VInt 1; VInt 0; VInt 0])
              eq_refl wf_three_customers eq_refl) as [Hhas [_ [_ [_ Hreload]]]].
  split; [exact Hhas|exact Hreload].
Defined.

Lemma filter_options_at_three_binary :
  In (SidebarMultiselect "Select Contract Type" [monthly; two_year] [monthly; two_year])
     (rendered (dashboard (mkEnv telco_file (Csv three_binary)) untouched)) /\
  NoDup [monthly; two_year].
Proof.
  assert (H : In (SidebarMultiselect "Select Contract Type"
                    [monthly; two_year] [monthly; two_year])
                 (rendered (dashboard (mkEnv telco_file (Csv three_binary)) untouched))).
  { vm_compute. tauto. }
  split; [exact H|].
  destruct (filter_options_are_the_distinct_values
              (mkEnv telco_file (Csv three_binary)) untouched
              "Select Contract Type" [monthly; two_year] [monthly; two_year] H)
    as [df [col [_ [_ [_ [Hnodup _]]]]]].
  exact Hnodup.
Defined.

(** * The worked scenario in binary64 *)

(** [round64] returns what the machine returns, for every quotient of two
    integers up to 64 and every difference of two quotients of integers up to
    10. *)
Lemma round64_agrees_with_the_machine :
  forallb (fun a => forallb (agrees_on_quotient a) (upto 64)) (upto 64) = true /\
  forallb (fun a => forallb (fun b => forallb (fun c =>
    forallb (agrees_on_difference a b c) (upto 10)) (upto 10)) (upto 10)) (upto 10)
  = true.
Proof. split; vm_compute; reflexivity. Qed.

Lemma render_dashboard_shows_tiles df u c i o s :
  getitem df "Contract" = Ok c ->
  getitem df "InternetService" = Ok i ->
  overall_churn_rate df = Ok o ->
  segment_churn_rate (loc_mask df (filter_mask c i u)) = Ok s ->
  In (Metric "Total Customers in Segment"
        (Count (len (loc_mask df (filter_mask c i u)))) None)
     (rendered (render_dashboard df u)) /\
  In (Metric "Overall Churn Rate" (Percent o) None) (rendered (render_dashboard df u)) /\
  In (Metric "Segment Churn Rate" (Percent s) (Some (fsub s o)))
     (rendered (render_dashboard df u)).
Proof.
  intros Hc Hi Ho Hs. unfold render_dashboard.
  assert (Hreach : forall el,
    In el [Metric "Total Customers in Segment"
             (Count (len (loc_mask df (filter_mask c i u)))) None;
           Metric "Overall Churn Rate" (Percent o) None;
           Metric "Segment Churn Rate" (Percent s) (Some (fsub s o))] ->
    In el (rendered (render_dashboard df u))).
  { intros el Hel. unfold render_dashboard.
    eapply in_rendered_bind_r; [reflexivity|].
    eapply in_rendered_bind_r; [simpl; rewrite Hc; reflexivity|].
    eapply in_rendered_bind_r; [reflexivity|].
    eapply in_rendered_bind_r; [simpl; rewrite Hi; reflexivity|].
    eapply in_rendered_bind_r; [reflexivity|].
    eapply in_rendered_bind_r;
      [rewrite (filtered_df_unfold _ _ _ _ _ Hc Hi); reflexivity|].
    eapply in_rendered_bind_r; [rewrite Ho; reflexivity|].
    apply in_rendered_bind_r with (a := s);
      [change (ending (lift (segment_churn_rate (loc_mask df (filter_mask c i u))))
               = Done s); rewrite Hs; reflexivity|].
    eapply in_rendered_bind_r; [reflexivity|].
    destruct Hel as [<-|[<-|[<-|[]]]].
    - apply in_rendered_bind_l. left. reflexivity.
    - eapply in_rendered_bind_r; [reflexivity|].
      apply in_rendered_bind_l. left. reflexivity.
    - eapply in_rendered_bind_r; [reflexivity|].
      eapply in_rendered_bind_r; [reflexivity|].
      apply in_rendered_bind_l. left. reflexivity. }
  fold (render_dashboard df u).
  repeat split; apply Hreach; simpl; auto.
Qed.

(** C7, as amended. Worked scenario: for a table of three rows with
    'Contract' values "Month-to-month", "Month-to-month", "Two year" and
    'Churn' values "Yes", "No", "No", the overall churn rate shown is the
    float64 nearest to 1/3; with the contract selection ["Month-to-month"]
    and an internet selection that covers all rows the page shows 2
    customers and a segment churn rate of 0.5; the delta shown is the float64
    difference of the two rates, 0.16666666666666669, which is within 2^-55
    of 1/6. *)
Theorem worked_scenario
    (e : env) (u : user) (df : DataFrame) (internet internet_filter : list value) :
  disk e = Csv df ->
  wf_frame df ->
  has_column "churn_label" df = false ->
  getitem df "Contract"
    = Ok [VStr "Month-to-month"; VStr "Month-to-month"; VStr "Two year"] ->
  getitem df "Churn" = Ok [VStr "Yes"; VStr "No"; VStr "No"] ->
  getitem df "InternetService" = Ok internet ->
  chosen_contract u = Some [VStr "Month-to-month"] ->
  selection (chosen_internet u) (unique internet) = internet_filter ->
  (forall v, In v internet -> isin1 v internet_filter = true) ->
  exists loaded filtered,
    load_data e = ([], Done (Some loaded)) /\
    overall_churn_rate loaded = Ok (FVal (round64 (1 # 3))) /\
    filtered_df loaded [VStr "Month-to-month"] internet_filter = Ok filtered /\
    len filtered = 2%nat /\
    segment_churn_rate filtered = Ok (FVal (1 # 2)) /\
    In (Metric "Total Customers in Segment" (Count 2) None) (rendered (dashboard e u)) /\
    In (Metric "Overall Churn Rate" (Percent (FVal (round64 (1 # 3)))) None)
       (rendered (dashboard e u)) /\
    In (Metric "Segment Churn Rate" (Percent (FVal (1 # 2))) (Some (FVal scenario_delta)))
       (rendered (dashboard e u)) /\
    scenario_delta = round64 ((1 # 2) - round64 (1 # 3)) /\
    Qabs (scenario_delta - (1 # 6)) < 1 # 36028797018963968.
Proof.
  intros Hdisk Hwf Hlabel Hcontract Hchurn Hinternet Hu1 Hu2 Hcover.
  pose proof (getitem_length _ _ _ Hwf Hcontract) as Lidx.
  pose proof (getitem_length _ _ _ Hwf Hinternet) as Lint.
  set (contract := [VStr "Month-to-month"; VStr "Month-to-month"; VStr "Two year"]) in *.
  set (labels := [VInt 1; VInt 0; VInt 0]).
  set (loaded := setitem df "churn_label" labels).
  assert (Hload : load_data e = ([], Done (Some loaded))).
  { rewrite (load_data_on_table e df Hdisk), Hlabel.
    rewrite (getitem_has_column _ _ _ Hchurn), Hchurn. reflexivity. }
  assert (Hlabels : getitem loaded "churn_label" = Ok labels)
    by apply getitem_setitem_same.
  assert (Hc : getitem loaded "Contract" = Ok contract).
  { unfold loaded. rewrite getitem_setitem_other by discriminate. exact Hcontract. }
  assert (Hi : getitem loaded "InternetService" = Ok internet).
  { unfold loaded. rewrite getitem_setitem_other by discriminate. exact Hinternet. }
  assert (Hmask : filter_mask contract internet u = [true; true; false]).
  { unfold filter_mask. rewrite Hu1, Hu2. simpl selection.
    destruct internet as [|i1 [|i2 [|i3 [|]]]]; simpl in Lint, Lidx; try lia.
    unfold isin. simpl map.
    rewrite !Hcover by (simpl; auto).
    reflexivity. }
  destruct (index df) as [|r1 [|r2 [|r3 [|]]]] eqn:Hidx; simpl in Lidx; try lia.
  assert (Ho : overall_churn_rate loaded = Ok (FVal (round64 (1 # 3)))).
  { unfold overall_churn_rate. simpl bind. rewrite Hlabels. vm_compute. reflexivity. }
  assert (Hseg : getitem (loc_mask loaded [true; true; false]) "churn_label"
                 = Ok [VInt 1; VInt 0])
    by exact (getitem_loc_mask loaded [true; true; false] _ _ Hlabels).
  assert (Hs : segment_churn_rate (loc_mask loaded [true; true; false])
               = Ok (FVal (1 # 2))).
  { unfold segment_churn_rate.
    assert (Hrows : index (loc_mask loaded [true; true; false]) <> []).
    { unfold loc_mask, loaded. simpl. rewrite Hidx. discriminate. }
    rewrite (empty_false _ _ _ Hrows Hseg).
    simpl bind. rewrite Hseg. vm_compute. reflexivity. }
  assert (Hlen : len (loc_mask loaded [true; true; false]) = 2%nat).
  { unfold len, loc_mask, loaded. simpl. rewrite Hidx. reflexivity. }
  assert (Hend : ending (load_data e) = Done (Some loaded)) by (rewrite Hload; reflexivity).
  pose proof (render_dashboard_shows_tiles loaded u contract internet
                (FVal (round64 (1 # 3))) (FVal (1 # 2)) Hc Hi Ho) as Htiles.
  rewrite Hmask in Htiles. specialize (Htiles Hs). rewrite Hlen in Htiles.
  destruct Htiles as [Ht1 [Ht2 Ht3]].
  exists loaded, (loc_mask loaded [true; true; false]).
  split; [exact Hload|]. split; [exact Ho|].
  split.
  { rewrite (filtered_df_unfold _ _ _ _ _ Hc Hi).
    unfold filter_mask in Hmask. rewrite Hu1, Hu2 in Hmask. simpl selection in Hmask.
    rewrite Hmask. reflexivity. }
  split; [exact Hlen|]. split; [exact Hs|].
  rewrite (dashboard_after_load e u loaded Hend). unfold rendered at 1 3 5. simpl fst.
  split; [right; right; exact Ht1|].
  split; [right; right; exact Ht2|].
  split.
  { right. right.
    replace (FVal scenario_delta) with (fsub (FVal (1 # 2)) (FVal (round64 (1 # 3))))
      by (vm_compute; reflexivity).
    exact Ht3. }
  split; [vm_compute; reflexivity|].
  vm_compute. reflexivity.
Qed.

(** C7, as stated, fails on the delta: at the three customers of the
    scenario the delta the page shows is 0.16666666666666669, the machine's
    [0.5 - 1/3]; it is not 1/6, and not the float64 nearest to 1/6 either. *)
Lemma scenario_delta_is_not_one_sixth :
  In (Metric "Segment Churn Rate" (Percent (FVal (1 # 2))) (Some (FVal scenario_delta)))
     (rendered (dashboard (mkEnv telco_file (Csv three_customers)) monthly_only)) /\
  (forall x d,
     In (Metric "Segment Churn Rate" x (Some (FVal d)))
        (rendered (dashboard (mkEnv telco_file (Csv three_customers)) monthly_only)) ->
     ~ d == 1 # 6) /\
  scenario_delta <> round64 (1 # 6) /\
  PrimFloat.eqb (to_binary64 scenario_delta)
    (PrimFloat.sub (PrimFloat.div (machine_float 1) (machine_float 2))
                   (PrimFloat.div (machine_float 1) (machine_float 3))) = true /\
  PrimFloat.eqb (to_binary64 scenario_delta)
    (PrimFloat.div (machine_float 1) (machine_float 6)) = false.
Proof.
  split; [vm_compute; tauto|].
  split.
  { intros x d H.
    unfold rendered in H. vm_compute in H.
    repeat (destruct H as [H|H]; try discriminate); [|contradiction].
    injection H as _ <-. vm_compute. discriminate. }
  split; [vm_compute; discriminate|].
  split; vm_compute; reflexivity.
Qed.

Lemma worked_scenario_at_three_customers :
  wf_frame three_customers /\
  exists loaded filtered,
    load_data (mkEnv telco_file (Csv three_customers)) = ([], Done (Some loaded)) /\
    overall_churn_rate loaded = Ok (FVal (round64 (1 # 3))) /\
    filtered_df loaded [VStr "Month-to-month"]
      [VStr "DSL"; VStr "Fiber optic"; VStr "No"] = Ok filtered /\
    len filtered = 2%nat /\
    segment_churn_rate filtered = Ok (FVal (1 # 2)) /\
    In (Metric "Total Customers in Segment" (Count 2) None)
       (rendered (dashboard (mkEnv telco_file (Csv three_customers)) monthly_only)) /\
    In (Metric "Overall Churn Rate" (Percent (FVal (round64 (1 # 3)))) None)
       (rendered (dashboard (mkEnv telco_file (Csv three_customers)) monthly_only)) /\
    In (Metric "Segment Churn Rate" (Percent (FVal (1 # 2))) (Some (FVal scenario_delta)))
       (rendered (dashboard (mkEnv telco_file (Csv three_customers)) monthly_only)) /\
    scenario_delta = round64 ((1 # 2) - round64 (1 # 3)) /\
    Qabs (scenario_delta - (1 # 6)) < 1 # 36028797018963968.
Proof.
  split; [exact wf_three_customers|].
  apply (worked_scenario (mkEnv telco_file (Csv three_customers)) monthly_only
           three_customers [VStr "DSL"; VStr "Fiber optic"; VStr "No"]);
    try reflexivity; [exact wf_three_customers|].
  intros v Hv. apply isin1_In. exact Hv.
Defined.
